(** * Supermarketbot-RPA: billing and inventory core

    A shallow embedding of [SuperMarket_Bot_2]: the data classes of
    [models.py], the JSON-backed [DatabaseManager] of [database.py], and the
    operations of [billing_service.py] and [inventory_service.py], followed
    by the properties of the billing transaction, the stock invariant, the
    low-stock alerts and the sales summary.

    Conventions of the embedding.
    - A Python [int] is a [Z]; a Python [float] is a binary64 value of
      [PrimFloat], so sums and products round exactly as CPython's do.
    - [Dict[str, Product]] is a [gmap string Product.t].  The dictionary a
      caller passes as [items_purchased] is the list of its entries in
      iteration order; its keys are pairwise distinct, which statements that
      need it assume as [NoDup items.*1].
    - The two JSON files are the state: [products.json] as the dictionary of
      the records [Product.to_dict] writes, [bills.json] as the list of the
      bills it decodes to.  Reading and writing the files is assumed to
      succeed; an absent file is the empty collection, as in the source.
    - Values the source draws from its environment ([uuid.uuid4()],
      [datetime.now()]) are arguments.
    - [products.values()] is enumerated in the order of [map_to_list], not
      in Python's insertion order; statements about alerts are by
      membership or relative to [get_low_stock_products], so they do not
      depend on it.
    - [sum] starts from the int [0]; adding it to a float gives what adding
      [0.0] gives, so float sums start from [0.0], and the int [0] that the
      sales summary reports for a day without bills is the float zero.
    - Of the logger's output only what [create_bill] writes is kept, one
      record per format string. *)

From Stdlib Require Import ZArith Floats Ascii String List Lia.
From stdpp Require Import gmap strings list.

Set Warnings "-inexact-float".

Local Open Scope string_scope.
Local Open Scope list_scope.
Local Open Scope Z_scope.

(** ** Python numbers *)

Module Py.

(** Exceptions the modelled code can raise. *)
Inductive exn :=
| OverflowError   (* int too large to convert to float *)
| ValueError.

(** [float(n)] for an [int] [n]: the nearest binary64 value, ties to
    even; CPython raises [OverflowError] when that value is not finite. *)
Definition int_to_float (n : Z) : float :=
  SF2Prim (SpecFloat.binary_normalize prec emax n 0 false).

Definition float_of_int (n : Z) : option float :=
  let f := int_to_float n in
  if PrimFloat.is_infinity f then None else Some f.

(** [x * n] with [x : float] and [n : int]: [n] is converted first. *)
Definition float_mul_int (x : float) (n : Z) : option float :=
  match float_of_int n with
  | Some f => Some (x * f)%float
  | None => None
  end.

(** [sum(xs)] over floats, left to right from zero. *)
Definition sum_float (xs : list float) : float :=
  fold_left PrimFloat.add xs 0%float.

(** [sum(ns)] over ints. *)
Definition sum_int (ns : list Z) : Z :=
  fold_left Z.add ns 0.

(** [len(xs)]. *)
Definition len {A} (xs : list A) : Z := Z.of_nat (length xs).

(** [s.upper()] on ASCII letters. *)
Definition ascii_upper (c : ascii) : ascii :=
  let n := nat_of_ascii c in
  if ((97 <=? n)%nat && (n <=? 122)%nat)%bool then ascii_of_nat (n - 32) else c.

Fixpoint upper (s : string) : string :=
  match s with
  | EmptyString => EmptyString
  | String c s' => String (ascii_upper c) (upper s')
  end.

(** [s[:n]]. *)
Definition prefix (n : nat) (s : string) : string := String.substring 0 n s.

End Py.

(** ** models.py *)

Record date := mkDate { d_year : Z; d_month : Z; d_day : Z }.

Record datetime := mkDatetime {
  dt_date : date;
  dt_hour : Z; dt_minute : Z; dt_second : Z; dt_microsecond : Z
}.

#[global] Instance date_eq_dec : EqDecision date.
Proof. solve_decision. Defined.

Module Product.
Record t := mk {
  id : string;
  name : string;
  category : string;
  price : float;
  quantity : Z;
  min_stock_level : Z;
  tax_rate : float
}.

(** The JSON object [to_dict] builds, key by key. *)
Record dict := mk_dict {
  d_id : string;
  d_name : string;
  d_category : string;
  d_price : float;
  d_quantity : Z;
  d_min_stock_level : Z;
  d_tax_rate : float
}.

Definition to_dict (self : t) : dict :=
  {| d_id := id self; d_name := name self; d_category := category self;
     d_price := price self; d_quantity := quantity self;
     d_min_stock_level := min_stock_level self; d_tax_rate := tax_rate self |}.

Definition from_dict (data : dict) : t :=
  {| id := d_id data; name := d_name data; category := d_category data;
     price := d_price data; quantity := d_quantity data;
     min_stock_level := d_min_stock_level data; tax_rate := d_tax_rate data |}.

(** [product.quantity = q]. *)
Definition set_quantity (q : Z) (self : t) : t :=
  {| id := id self; name := name self; category := category self;
     price := price self; quantity := q;
     min_stock_level := min_stock_level self; tax_rate := tax_rate self |}.
End Product.

Module Customer.
Record t := mk {
  name : string;
  phone : string;
  email : option string
}.
End Customer.

Module BillItem.
Record t := mk {
  product_id : string;
  product_name : string;
  quantity : Z;
  unit_price : float;
  total_price : float;
  tax_amount : float
}.
End BillItem.

Module Bill.
Record t := mk {
  id : string;
  customer : Customer.t;
  items : list BillItem.t;
  subtotal : float;
  tax_amount : float;
  total_amount : float;
  created_at : datetime;
  status : string
}.
End Bill.

Module InventoryAlert.
Record t := mk {
  product_id : string;
  product_name : string;
  current_quantity : Z;
  min_required : Z;
  suggested_order_quantity : Z
}.
End InventoryAlert.

(** ** database.py *)

Module DatabaseManager.

(** The contents of [products.json] and [bills.json]. *)
Record t := mk {
  products_file : gmap string Product.dict;
  bills_file : list Bill.t
}.

Definition load_products (self : t) : gmap string Product.t :=
  Product.from_dict <$> products_file self.

Definition save_products (products : gmap string Product.t) (self : t) : t :=
  {| products_file := Product.to_dict <$> products;
     bills_file := bills_file self |}.

Definition get_all_products (self : t) : list Product.t :=
  (map_to_list (load_products self)).*2.

Definition get_product_by_id (product_id : string) (self : t) : option Product.t :=
  load_products self !! product_id.

Definition add_product (product : Product.t) (self : t) : t :=
  let products := load_products self in
  save_products (<[Product.id product := product]> products) self.

Definition update_product (product : Product.t) (self : t) : t :=
  let products := load_products self in
  save_products (<[Product.id product := product]> products) self.

Definition delete_product (product_id : string) (self : t) : t :=
  let products := load_products self in
  match products !! product_id with
  | Some _ => save_products (delete product_id products) self
  | None => self
  end.

Definition load_bills (self : t) : list Bill.t := bills_file self.

Definition save_bills (bills : list Bill.t) (self : t) : t :=
  {| products_file := products_file self; bills_file := bills |}.

Definition add_bill (bill : Bill.t) (self : t) : t :=
  let bills := load_bills self in
  save_bills (bills ++ [bill]) self.

Definition get_bill_by_id (bill_id : string) (self : t) : option Bill.t :=
  List.find (fun bill => bool_decide (Bill.id bill = bill_id)) (load_bills self).

Definition default_products : list Product.t :=
  [ Product.mk "med001" "Hand Sanitizer 100ml" "Medical" 4.50 100 20 0.05;
    Product.mk "med002" "Face Mask (Pack of 10)" "Medical" 5.00 100 20 0.05;
    Product.mk "med003" "Thermal Gun" "Medical" 25.00 100 10 0.05;
    Product.mk "med004" "Hand Gloves (Box of 100)" "Medical" 12.00 100 20 0.05;
    Product.mk "med005" "Cough Syrup 100ml" "Medical" 8.00 100 20 0.05;
    Product.mk "med006" "Antiseptic Cream 50g" "Medical" 6.00 100 20 0.05;
    Product.mk "gro001" "Rice 1kg" "Grocery" 3.00 100 30 0.05;
    Product.mk "gro002" "Cooking Oil 1L" "Grocery" 4.00 100 30 0.05;
    Product.mk "gro003" "Wheat Flour 1kg" "Grocery" 2.00 100 30 0.05;
    Product.mk "gro004" "Spices Pack" "Grocery" 3.00 100 25 0.05;
    Product.mk "gro005" "Sugar 1kg" "Grocery" 2.50 100 30 0.05;
    Product.mk "gro006" "Salt 1kg" "Grocery" 1.50 100 30 0.05;
    Product.mk "gro007" "Maggi Noodles" "Grocery" 1.50 100 30 0.05;
    Product.mk "gro008" "Bread Loaf" "Grocery" 2.00 100 25 0.05;
    Product.mk "cld001" "Coca Cola 500ml" "Cold Drinks" 2.50 100 40 0.10;
    Product.mk "cld002" "Sprite 500ml" "Cold Drinks" 2.50 100 40 0.10;
    Product.mk "cld003" "Mineral Water 1L" "Cold Drinks" 1.50 100 50 0.10;
    Product.mk "cld004" "Mango Juice 1L" "Cold Drinks" 3.50 100 30 0.10;
    Product.mk "cld005" "Lassi 200ml" "Cold Drinks" 2.00 100 30 0.10;
    Product.mk "cld006" "Mountain Dew 500ml" "Cold Drinks" 2.25 100 40 0.10 ].

(** [initialize_default_products]: fills an empty catalog only. *)
Definition initialize_default_products (self : t) : t :=
  let products := load_products self in
  if bool_decide (products = ∅) then
    save_products
      (fold_left (fun products product => <[Product.id product := product]> products)
                 default_products products)
      self
  else self.

Definition update_product_quantity (product_id : string) (new_quantity : Z)
    (self : t) : bool * t :=
  let products := load_products self in
  match products !! product_id with
  | Some product =>
      (true, save_products
               (<[product_id := Product.set_quantity new_quantity product]> products) self)
  | None => (false, self)
  end.

Definition get_low_stock_products (self : t) : list InventoryAlert.t :=
  let products := load_products self in
  List.map
    (fun product =>
       InventoryAlert.mk (Product.id product) (Product.name product)
         (Product.quantity product) (Product.min_stock_level product)
         (100 - Product.quantity product))
    (filter
       (fun product => Product.quantity product < Product.min_stock_level product)
       (map_to_list products).*2).

Definition get_customer_by_phone (phone : string) (self : t) : option Customer.t :=
  Bill.customer <$>
    List.find (fun bill => bool_decide (Customer.phone (Bill.customer bill) = phone))
              (load_bills self).

End DatabaseManager.

(** ** billing_service.py *)

Module BillingService.

(** What the service writes to its logger, by format string. *)
Inductive log_record :=
| ErrorProductNotFound (product_id : string)
    (* "Product {product_id} not found" *)
| ErrorInsufficientStock (product_name : string) (available : Z)
    (* "Insufficient stock for {product.name}. Available: {product.quantity}" *)
| ErrorCreatingBill (e : Py.exn)
    (* "Error creating bill: {e}" *)
| InfoBillCreated (bill_id : string).
    (* "Bill {bill.id} created successfully" *)

(** How a call ends: [return v] or an exception leaving the function. *)
Inductive outcome :=
| Returned (v : option Bill.t)
| Raised (e : Py.exn).

(** The local variables of [create_bill] that the loop reads and writes,
    with the database the loop persists to.  [products] is the dictionary
    loaded once before the loop; its [Product] objects are mutated in
    place. *)
Record locals := mk_locals {
  products : gmap string Product.t;
  bill_items : list BillItem.t;
  subtotal : float;
  total_tax : float;
  db : DatabaseManager.t
}.

(** The three ways the loop body leaves the function early. *)
Inductive loop_exit :=
| ExitNotFound (product_id : string)
| ExitInsufficient (product_name : string) (available : Z)
| ExitRaise (e : Py.exn).

(** One iteration of [for product_id, quantity in items_purchased.items()]. *)
Definition create_bill_body (st : locals) (product_id : string) (quantity : Z)
    : loop_exit + locals :=
  match products st !! product_id with
  | None => inl (ExitNotFound product_id)
  | Some product =>
      if Product.quantity product <? quantity then
        inl (ExitInsufficient (Product.name product) (Product.quantity product))
      else
        let unit_price := Product.price product in
        match Py.float_mul_int unit_price quantity with
        | None => inl (ExitRaise Py.OverflowError)
        | Some item_total =>
            let tax_amount := (item_total * Product.tax_rate product)%float in
            let bill_item :=
              BillItem.mk product_id (Product.name product) quantity
                          unit_price item_total tax_amount in
            let product' :=
              Product.set_quantity (Product.quantity product - quantity) product in
            inr {| products := <[product_id := product']> (products st);
                   bill_items := bill_items st ++ [bill_item];
                   subtotal := (subtotal st + item_total)%float;
                   total_tax := (total_tax st + tax_amount)%float;
                   db := DatabaseManager.update_product product' (db st) |}
        end
  end.

Fixpoint create_bill_loop (items : list (string * Z)) (st : locals)
    : locals * option loop_exit :=
  match items with
  | [] => (st, None)
  | (product_id, quantity) :: rest =>
      match create_bill_body st product_id quantity with
      | inl e => (st, Some e)
      | inr st' => create_bill_loop rest st'
      end
  end.

(** The locals at loop entry: the catalog as loaded, no items, zero sums. *)
Definition create_bill_init (self : DatabaseManager.t) : locals :=
  {| products := DatabaseManager.load_products self;
     bill_items := []; subtotal := 0; total_tax := 0; db := self |}.

Definition create_bill (customer_info : gmap string string)
    (items_purchased : list (string * Z)) (uuid4 : string) (now : datetime)
    (self : DatabaseManager.t)
    : outcome * DatabaseManager.t * list log_record :=
  let customer :=
    Customer.mk (default "" (customer_info !! "name"))
                (default "" (customer_info !! "phone"))
                (customer_info !! "email") in
  match create_bill_loop items_purchased (create_bill_init self) with
  | (st, Some (ExitNotFound product_id)) =>
      (Returned None, db st, [ErrorProductNotFound product_id])
  | (st, Some (ExitInsufficient product_name available)) =>
      (Returned None, db st, [ErrorInsufficientStock product_name available])
  | (st, Some (ExitRaise e)) =>
      (Raised e, db st, [ErrorCreatingBill e])
  | (st, None) =>
      let total_amount := (subtotal st + total_tax st)%float in
      let bill :=
        Bill.mk (Py.upper (Py.prefix 8 uuid4)) customer (bill_items st)
                (subtotal st) (total_tax st) total_amount now "completed" in
      (Returned (Some bill), DatabaseManager.add_bill bill (db st),
       [InfoBillCreated (Bill.id bill)])
  end.

Definition get_bill_by_id (bill_id : string) (self : DatabaseManager.t) :=
  DatabaseManager.get_bill_by_id bill_id self.

Definition get_all_bills (self : DatabaseManager.t) :=
  DatabaseManager.load_bills self.

(** The dictionary [get_daily_sales_summary] returns. *)
Record sales_summary := mk_summary {
  s_date : date;
  total_sales : float;
  total_bills : Z;
  total_items : Z;
  average_bill_value : float
}.

(** [len] of a list is at most [sys.maxsize], so the conversion of
    [total_bills] in the division below cannot overflow; the division is
    guarded against a zero count by the conditional. *)
Definition get_daily_sales_summary (date : datetime) (self : DatabaseManager.t)
    : sales_summary :=
  let bills := DatabaseManager.load_bills self in
  let daily_bills :=
    filter (fun bill => dt_date (Bill.created_at bill) = dt_date date) bills in
  let total_sales := Py.sum_float (List.map Bill.total_amount daily_bills) in
  let total_bills := Py.len daily_bills in
  let total_items := Py.sum_int (List.map (fun bill => Py.len (Bill.items bill)) daily_bills) in
  {| s_date := dt_date date;
     total_sales := total_sales;
     total_bills := total_bills;
     total_items := total_items;
     average_bill_value :=
       if 0 <? total_bills then (total_sales / Py.int_to_float total_bills)%float
       else 0%float |}.

(** The message half of the pair [validate_quantity] returns. *)
Inductive message :=
| QuantityMustBePositive            (* "Quantity must be greater than 0" *)
| ProductNotFound                   (* "Product not found" *)
| InsufficientStock (available : Z) (* "Insufficient stock. Available: {n}" *)
| Valid.                            (* "Valid" *)

Definition validate_quantity (product_id : string) (quantity : Z)
    (self : DatabaseManager.t) : bool * message :=
  if quantity <=? 0 then (false, QuantityMustBePositive)
  else
    let products := DatabaseManager.load_products self in
    match products !! product_id with
    | None => (false, ProductNotFound)
    | Some product =>
        if Product.quantity product <? quantity
        then (false, InsufficientStock (Product.quantity product))
        else (true, Valid)
    end.

Definition get_bill_details (bill_id : string) (self : DatabaseManager.t) :=
  get_bill_by_id bill_id self.

Definition get_customer_bills (customer_id : string) (self : DatabaseManager.t)
    : list Bill.t :=
  let bills := DatabaseManager.load_bills self in
  filter (fun bill => Customer.phone (Bill.customer bill) = customer_id) bills.

End BillingService.

(** ** inventory_service.py *)

Module InventoryService.

Definition get_all_products (self : DatabaseManager.t) : list Product.t :=
  DatabaseManager.get_all_products self.

Definition get_product_by_id (product_id : string) (self : DatabaseManager.t) :=
  DatabaseManager.get_product_by_id product_id self.

(** The [ValueError] raised for a negative quantity is caught by the
    method's own handler, which returns [False]. *)
Definition update_product_quantity (product_id : string) (new_quantity : Z)
    (self : DatabaseManager.t) : bool * DatabaseManager.t :=
  if new_quantity <? 0 then (false, self)
  else
    match DatabaseManager.get_product_by_id product_id self with
    | Some product =>
        (true, DatabaseManager.update_product
                 (Product.set_quantity new_quantity product) self)
    | None => (false, self)
    end.

Definition get_low_stock_products (self : DatabaseManager.t) : list Product.t :=
  filter
    (fun p => Product.quantity p < Product.min_stock_level p)
    (get_all_products self).

(** [check_stock_levels] as the class body first defines it (the list of
    alerts).  The class defines a method of the same name again further
    down, so at run time this first definition is replaced by
    [check_stock_levels] below. *)
Definition check_stock_levels_shadowed (self : DatabaseManager.t)
    : list InventoryAlert.t :=
  let products := get_all_products self in
  List.map
    (fun product =>
       InventoryAlert.mk (Product.id product) (Product.name product)
         (Product.quantity product) (Product.min_stock_level product)
         (Z.max 50 (Product.min_stock_level product * 2)))
    (filter
       (fun product => Product.quantity product < Product.min_stock_level product)
       products).

Definition add_stock (product_id : string) (quantity : Z)
    (self : DatabaseManager.t) : bool * DatabaseManager.t :=
  match get_product_by_id product_id self with
  | None => (false, self)
  | Some product =>
      let new_quantity := Product.quantity product + quantity in
      update_product_quantity product_id new_quantity self
  end.

Definition get_low_stock_alerts (self : DatabaseManager.t) : list InventoryAlert.t :=
  DatabaseManager.get_low_stock_products self.

(** The dictionary of the second [check_stock_levels]: the alerts of
    [get_low_stock_alerts] by urgency. *)
Record categorized := mk_categorized {
  critical : list InventoryAlert.t;
  low : list InventoryAlert.t;
  normal : list InventoryAlert.t
}.

Definition check_stock_levels (self : DatabaseManager.t) : categorized :=
  let alerts := get_low_stock_alerts self in
  fold_left
    (fun categorized alert =>
       if InventoryAlert.current_quantity alert <? 10 then
         {| critical := critical categorized ++ [alert];
            low := low categorized; normal := normal categorized |}
       else if InventoryAlert.current_quantity alert <? 50 then
         {| critical := critical categorized;
            low := low categorized ++ [alert]; normal := normal categorized |}
       else
         {| critical := critical categorized;
            low := low categorized; normal := normal categorized ++ [alert] |})
    alerts {| critical := []; low := []; normal := [] |}.

(** One iteration of [for product_id, new_quantity in updates.items()]. *)
Definition bulk_update_body (acc : list (string * bool) * DatabaseManager.t)
    (update : string * Z) : list (string * bool) * DatabaseManager.t :=
  let '(results, db) := acc in
  let '(product_id, new_quantity) := update in
  let '(success, db') := update_product_quantity product_id new_quantity db in
  (results ++ [(product_id, success)], db').

Definition bulk_update_inventory (updates : list (string * Z))
    (self : DatabaseManager.t) : list (string * bool) * DatabaseManager.t :=
  fold_left bulk_update_body updates ([], self).

(** An entry of the summary's [categories]: [{'count': n, 'value': v}]. *)
Record category_stats := mk_category_stats {
  count : Z;
  value : float
}.

(** The dictionary the second [get_inventory_summary] (the one in force)
    returns. *)
Record inventory_summary := mk_inventory_summary {
  total_products : Z;
  low_stock_count : Z;
  total_inventory_value : float;
  categories : gmap string category_stats;
  stock_health : string
}.

(** [product.price * product.quantity]. *)
Definition stock_value (product : Product.t) : option float :=
  Py.float_mul_int (Product.price product) (Product.quantity product).

(** One iteration of the loop over [products.values()]: create the
    category's entry if it is missing, then count the product and add its
    stock value. *)
Definition categories_body (categories : gmap string category_stats)
    (product : Product.t) : option (gmap string category_stats) :=
  let entry :=
    match categories !! Product.category product with
    | None => mk_category_stats 0 0
    | Some entry => entry
    end in
  match stock_value product with
  | None => None
  | Some v =>
      Some (<[Product.category product :=
                mk_category_stats (count entry + 1) (value entry + v)%float]>
              categories)
  end.

Fixpoint categories_loop (products : list Product.t)
    (categories : gmap string category_stats)
    : option (gmap string category_stats) :=
  match products with
  | [] => Some categories
  | product :: rest =>
      match categories_body categories product with
      | None => None
      | Some categories' => categories_loop rest categories'
      end
  end.

Definition get_inventory_summary (self : DatabaseManager.t)
    : Py.exn + inventory_summary :=
  let products := DatabaseManager.load_products self in
  let alerts := get_low_stock_alerts self in
  let total_products := Z.of_nat (size products) in
  let low_stock_count := Py.len alerts in
  match mapM stock_value (map_to_list products).*2 with
  | None => inl Py.OverflowError
  | Some values =>
      let total_value := Py.sum_float values in
      match categories_loop (map_to_list products).*2 ∅ with
      | None => inl Py.OverflowError
      | Some categories =>
          inr {| total_products := total_products;
                 low_stock_count := low_stock_count;
                 total_inventory_value := total_value;
                 categories := categories;
                 stock_health :=
                   if low_stock_count =? 0 then "Good" else "Needs Attention" |}
      end
  end.

End InventoryService.

(** ** api.py *)

Module Api.

(** The request bodies, as the pydantic models declare them. *)
Module ProductCreate.
Record t := mk {
  name : string;
  category : string;
  price : float;
  quantity : Z;
  min_stock_level : Z;
  tax_rate : float
}.
End ProductCreate.

Module ProductUpdate.
Record t := mk {
  name : option string;
  category : option string;
  price : option float;
  quantity : option Z;
  min_stock_level : option Z;
  tax_rate : option float
}.
End ProductUpdate.

Module CustomerCreate.
Record t := mk {
  name : string;
  phone : string;
  email : option string
}.
End CustomerCreate.

Module BillItemCreate.
Record t := mk {
  product_id : string;
  quantity : Z
}.
End BillItemCreate.

Module BillCreate.
Record t := mk {
  customer : CustomerCreate.t;
  items : list BillItemCreate.t
}.
End BillCreate.

(** What the clause [except Exception as e] of a handler has caught: an
    exception of the services, or an [HTTPException] the handler raised
    itself inside the [try] block. *)
Inductive caught :=
| CaughtError (e : Py.exn)
| CaughtHTTPException (status_code : Z) (detail : string).

(** The [detail] of an [HTTPException]: a literal, or [str(e)]. *)
Inductive detail :=
| Literal (s : string)
| StrOf (e : caught).

(** The dictionaries the handlers return. *)
Inductive body :=
| ProductDict (product : Product.t)
    (* product.__dict__ *)
| Message (message : string)
    (* {"message": ...} *)
| ProductCreated (message product_id : string)
    (* {"message": ..., "product_id": ...} *)
| BillCreated (message bill_id : string) (total_amount : float).
    (* {"message": ..., "bill_id": ..., "total_amount": ...} *)

(** How a handler ends: it returns a body (answered with status 200), or
    an [HTTPException] leaves it.  The handlers' log lines are left out. *)
Inductive result :=
| Return (b : body)
| HTTPException (status_code : Z) (d : detail).

(** [d[k] = v] on a [dict] in insertion order: a key that is present keeps
    its place and takes the new value, a new key goes to the end. *)
Fixpoint dict_setitem (k : string) (v : Z) (d : list (string * Z))
    : list (string * Z) :=
  match d with
  | [] => [(k, v)]
  | (k', v') :: rest =>
      if decide (k' = k) then (k', v) :: rest
      else (k', v') :: dict_setitem k v rest
  end.

(** [{item.product_id: item.quantity for item in bill_data.items}]. *)
Definition items_purchased (items : list BillItemCreate.t) : list (string * Z) :=
  fold_left
    (fun d item =>
       dict_setitem (BillItemCreate.product_id item) (BillItemCreate.quantity item) d)
    items [].

(** The [customer_info] dictionary of [create_bill].  [BillingService]
    reads it with [.get] only, which answers [None] for the key ["email"]
    both when it is bound to [None] and when it is absent. *)
Definition customer_info (customer : CustomerCreate.t) : gmap string string :=
  let info : gmap string string :=
    <["phone" := CustomerCreate.phone customer]>
      (<["name" := CustomerCreate.name customer]> ∅) in
  match CustomerCreate.email customer with
  | Some email => <["email" := email]> info
  | None => info
  end.

(** [GET /products/{product_id}]. *)
Definition get_product (product_id : string) (db : DatabaseManager.t) : result :=
  match DatabaseManager.get_product_by_id product_id db with
  | None => HTTPException 404 (Literal "Product not found")
  | Some product => Return (ProductDict product)
  end.

(** [POST /products]. *)
Definition create_product (product : ProductCreate.t) (uuid4 : string)
    (db : DatabaseManager.t) : result * DatabaseManager.t :=
  let product_id := uuid4 in
  let new_product :=
    Product.mk product_id (ProductCreate.name product)
      (ProductCreate.category product) (ProductCreate.price product)
      (ProductCreate.quantity product) (ProductCreate.min_stock_level product)
      (ProductCreate.tax_rate product) in
  (Return (ProductCreated "Product created successfully" product_id),
   DatabaseManager.add_product new_product db).

(** [PUT /products/{product_id}]: the fields that are provided overwrite
    those of the product as loaded, which is then written back. *)
Definition update_product (product_id : string) (product_update : ProductUpdate.t)
    (db : DatabaseManager.t) : result * DatabaseManager.t :=
  match DatabaseManager.get_product_by_id product_id db with
  | None => (HTTPException 404 (Literal "Product not found"), db)
  | Some product =>
      let product :=
        Product.mk (Product.id product)
          (default (Product.name product) (ProductUpdate.name product_update))
          (default (Product.category product) (ProductUpdate.category product_update))
          (default (Product.price product) (ProductUpdate.price product_update))
          (default (Product.quantity product) (ProductUpdate.quantity product_update))
          (default (Product.min_stock_level product)
                   (ProductUpdate.min_stock_level product_update))
          (default (Product.tax_rate product) (ProductUpdate.tax_rate product_update)) in
      (Return (Message "Product updated successfully"),
       DatabaseManager.update_product product db)
  end.

(** [DELETE /products/{product_id}]. *)
Definition delete_product (product_id : string) (db : DatabaseManager.t)
    : result * DatabaseManager.t :=
  match DatabaseManager.get_product_by_id product_id db with
  | None => (HTTPException 404 (Literal "Product not found"), db)
  | Some _ =>
      (Return (Message "Product deleted successfully"),
       DatabaseManager.delete_product product_id db)
  end.

(** [POST /bills].  The [HTTPException] with status 400 is raised inside
    the [try] block, whose only clause is [except Exception]: it is caught
    there and replaced by one with status 500, as is any exception of
    [BillingService.create_bill]. *)
Definition create_bill (bill_data : BillCreate.t) (uuid4 : string) (now : datetime)
    (db : DatabaseManager.t) : result * DatabaseManager.t :=
  let customer_info := customer_info (BillCreate.customer bill_data) in
  let items_purchased := items_purchased (BillCreate.items bill_data) in
  match BillingService.create_bill customer_info items_purchased uuid4 now db with
  | (BillingService.Returned (Some bill), db', _) =>
      (Return (BillCreated "Bill created successfully" (Bill.id bill)
                 (Bill.total_amount bill)),
       db')
  | (BillingService.Returned None, db', _) =>
      (HTTPException 500
         (StrOf (CaughtHTTPException 400 "Failed to create bill")),
       db')
  | (BillingService.Raised e, db', _) =>
      (HTTPException 500 (StrOf (CaughtError e)), db')
  end.

End Api.

(** ** Example data

    Scenario A of the specification: one product, "rice_l". *)

Definition rice_l : Product.t :=
  Product.mk "rice_l" "Rice" "Grocery" 3.00 100 30 0.05.

Definition empty_db : DatabaseManager.t := DatabaseManager.mk ∅ [].

Definition scenario_db : DatabaseManager.t :=
  DatabaseManager.add_product rice_l empty_db.

(** The catalog a fresh installation starts from. *)
Definition shop_db : DatabaseManager.t :=
  DatabaseManager.initialize_default_products empty_db.

Definition customer_a : gmap string string :=
  <["name" := "A"]> (<["phone" := "5550000"]> ∅).

Definition some_time : datetime := mkDatetime (mkDate 2024 3 15) 10 30 0 0.

(** ** Notions used by the statements *)

(** What a line item snapshots of its product. *)
Definition pricing (p : Product.t) : string * float * float :=
  (Product.name p, Product.price p, Product.tax_rate p).

(** [item] is the line billed for the request [line] against [products]:
    it records the product's name and unit price, the line total
    [price * quantity] and the tax [total * tax_rate]. *)
Definition billed_line (products : gmap string Product.t)
    (line : string * Z) (item : BillItem.t) : Prop :=
  ∃ product,
    products !! line.1 = Some product
    ∧ BillItem.product_id item = line.1
    ∧ BillItem.product_name item = Product.name product
    ∧ BillItem.quantity item = line.2
    ∧ BillItem.unit_price item = Product.price product
    ∧ Py.float_mul_int (Product.price product) line.2 = Some (BillItem.total_price item)
    ∧ BillItem.tax_amount item
      = (BillItem.total_price item * Product.tax_rate product)%float.

(** Edits of the catalog through the [DatabaseManager]. *)
Inductive catalog_edit :=
| EditAdd (product : Product.t)
| EditUpdate (product : Product.t)
| EditDelete (product_id : string)
| EditQuantity (product_id : string) (new_quantity : Z).

Definition apply_edit (db : DatabaseManager.t) (e : catalog_edit) : DatabaseManager.t :=
  match e with
  | EditAdd p => DatabaseManager.add_product p db
  | EditUpdate p => DatabaseManager.update_product p db
  | EditDelete k => DatabaseManager.delete_product k db
  | EditQuantity k q => (DatabaseManager.update_product_quantity k q db).2
  end.

Definition apply_edits (edits : list catalog_edit) (db : DatabaseManager.t)
    : DatabaseManager.t :=
  fold_left apply_edit edits db.


(** Loop invariant of [create_bill]: the running totals are the
    left-to-right sums over the items built so far. *)
Definition sums_agree (st : BillingService.locals) : Prop :=
  BillingService.subtotal st
    = Py.sum_float (List.map BillItem.total_price (BillingService.bill_items st))
  ∧ BillingService.total_tax st
    = Py.sum_float (List.map BillItem.tax_amount (BillingService.bill_items st)).

(** Scenario A as a call: ten units of "rice_l" for customer A. *)
Definition scenario_uuid : string := "3f2a9c1e-7b4d-4e8a-9c0f-5d6e7f8a9b0c".

Definition scenario_call :=
  BillingService.create_bill customer_a [("rice_l", 10)] scenario_uuid some_time
    scenario_db.

Definition scenario_bill : Bill.t :=
  Bill.mk "3F2A9C1E" (Customer.mk "A" "5550000" None)
    [BillItem.mk "rice_l" "Rice" 10 3 30 1.5] 30 1.5 31.5 some_time "completed".


(** The stock invariant: no product of the persisted catalog has a negative
    quantity on hand. *)
Definition stock_nonneg (db : DatabaseManager.t) : Prop :=
  map_Forall (fun _ p => 0 ≤ Product.quantity p) (DatabaseManager.load_products db).

(** The operations that change quantities: a billing transaction and the
    inventory service's quantity updates and restocks. *)
Inductive operation :=
| OpCreateBill (customer_info : gmap string string) (items : list (string * Z))
    (uuid4 : string) (now : datetime)
| OpUpdateProductQuantity (product_id : string) (new_quantity : Z)
| OpAddStock (product_id : string) (quantity : Z)
| OpBulkUpdateInventory (updates : list (string * Z)).

(** The database an operation leaves behind, whatever it returned. *)
Definition run_operation (db : DatabaseManager.t) (op : operation) : DatabaseManager.t :=
  match op with
  | OpCreateBill customer_info items uuid4 now =>
      (BillingService.create_bill customer_info items uuid4 now db).1.2
  | OpUpdateProductQuantity product_id new_quantity =>
      (InventoryService.update_product_quantity product_id new_quantity db).2
  | OpAddStock product_id quantity =>
      (InventoryService.add_stock product_id quantity db).2
  | OpBulkUpdateInventory updates =>
      (InventoryService.bulk_update_inventory updates db).2
  end.

Definition run_operations (ops : list operation) (db : DatabaseManager.t)
    : DatabaseManager.t :=
  fold_left run_operation ops db.

(** The loop invariant behind the stock invariant: the in-memory catalog
    and the persisted one are both free of negative quantities. *)
Definition locals_nonneg (st : BillingService.locals) : Prop :=
  map_Forall (fun _ p => 0 ≤ Product.quantity p) (BillingService.products st)
  ∧ stock_nonneg (BillingService.db st).

(** A day at the shop, used to exercise the invariant. *)
Definition busy_day : list operation :=
  [ OpCreateBill customer_a [("gro001", 100); ("cld003", 2)] scenario_uuid some_time;
    OpAddStock "gro001" (-5);
    OpUpdateProductQuantity "gro002" 0;
    OpCreateBill customer_a [("gro002", 1)] scenario_uuid some_time;
    OpBulkUpdateInventory [("med001", 7); ("med002", -1)];
    OpCreateBill customer_a [("med001", -3); ("nope", 1)] scenario_uuid some_time ].


(** The alert either rule builds for a product. *)
Definition alert_to_100 (p : Product.t) : InventoryAlert.t :=
  InventoryAlert.mk (Product.id p) (Product.name p) (Product.quantity p)
    (Product.min_stock_level p) (100 - Product.quantity p).

Definition alert_max_rule (p : Product.t) : InventoryAlert.t :=
  InventoryAlert.mk (Product.id p) (Product.name p) (Product.quantity p)
    (Product.min_stock_level p) (Z.max 50 (2 * Product.min_stock_level p)).

(** The default catalog with ten units of "gro001" left. *)
Definition low_rice_db : DatabaseManager.t :=
  (InventoryService.update_product_quantity "gro001" 10 shop_db).2.


(** The two preconditions of a request line, checked in the order the
    specification gives them against a catalog snapshot: the product must
    exist; the requested quantity must not exceed the quantity on hand. *)
Inductive rejection :=
| RejectNotFound (product_id : string)
| RejectInsufficient (product_name : string) (available : Z).

Definition check_line (products : gmap string Product.t) (line : string * Z)
    : option rejection :=
  match products !! line.1 with
  | None => Some (RejectNotFound line.1)
  | Some p =>
      if Product.quantity p <? line.2
      then Some (RejectInsufficient (Product.name p) (Product.quantity p))
      else None
  end.

(** The rejection of the first line, in iteration order, that violates a
    precondition. *)
Fixpoint first_rejection (products : gmap string Product.t)
    (items : list (string * Z)) : option rejection :=
  match items with
  | [] => None
  | line :: rest =>
      match check_line products line with
      | Some r => Some r
      | None => first_rejection products rest
      end
  end.

Definition rejection_exit (r : rejection) : BillingService.loop_exit :=
  match r with
  | RejectNotFound product_id => BillingService.ExitNotFound product_id
  | RejectInsufficient product_name available =>
      BillingService.ExitInsufficient product_name available
  end.

Definition rejection_log (r : rejection) : BillingService.log_record :=
  match r with
  | RejectNotFound product_id => BillingService.ErrorProductNotFound product_id
  | RejectInsufficient product_name available =>
      BillingService.ErrorInsufficientStock product_name available
  end.

(** The requested quantity converts to a float ([price * quantity] does not
    raise [OverflowError]). *)
Definition convertible (line : string * Z) : Prop :=
  is_Some (Py.float_of_int line.2).


(** A request whose second line names no product. *)
Definition mixed_request : list (string * Z) :=
  [("gro001", 10); ("nope", 1); ("gro002", 500)].


(** Scenario D of the specification: a valid line followed by one that asks
    for more than is on hand. *)
Definition partial_call :=
  BillingService.create_bill customer_a [("gro001", 10); ("gro002", 150)]
    scenario_uuid some_time shop_db.

(** A request for a negative quantity, and one for none at all. *)
Definition negative_call :=
  BillingService.create_bill customer_a [("gro001", -5)] scenario_uuid some_time shop_db.

Definition zero_call :=
  BillingService.create_bill customer_a [("gro001", 0)] scenario_uuid some_time shop_db.


(** A history of three bills, two of them of 15 March 2024. *)
Definition next_day_bill : Bill.t :=
  Bill.mk "0A1B2C3D" (Customer.mk "B" "5550001" None)
    [BillItem.mk "gro002" "Cooking Oil 1L" 2 4 8 0.4;
     BillItem.mk "gro006" "Salt 1kg" 1 1.5 1.5 0.075]
    9.5 0.475 9.975 (mkDatetime (mkDate 2024 3 16) 9 0 0 0) "completed".

Definition evening_bill : Bill.t :=
  Bill.mk "9F8E7D6C" (Customer.mk "C" "5550002" None)
    [BillItem.mk "gro003" "Wheat Flour 1kg" 5 2 10 0.5]
    10 0.5 10.5 (mkDatetime (mkDate 2024 3 15) 19 45 0 0) "completed".

Definition history_db : DatabaseManager.t :=
  DatabaseManager.add_bill evening_bill
    (DatabaseManager.add_bill next_day_bill
       (DatabaseManager.add_bill scenario_bill shop_db)).


(** ** Notions used by the further properties *)

(** Every product is stored under its own identifier. *)
Definition well_keyed_map (products : gmap string Product.t) : Prop :=
  map_Forall (fun k p => Product.id p = k) products.

Definition well_keyed (db : DatabaseManager.t) : Prop :=
  well_keyed_map (DatabaseManager.load_products db).

(** Anything the modelled code does to the store: a catalog edit, a billing
    or inventory operation, or the start-up initialisation. *)
Inductive action :=
| ActEdit (e : catalog_edit)
| ActOperate (op : operation)
| ActInitDefaults.

Definition run_action (db : DatabaseManager.t) (a : action) : DatabaseManager.t :=
  match a with
  | ActEdit e => apply_edit db e
  | ActOperate op => run_operation db op
  | ActInitDefaults => DatabaseManager.initialize_default_products db
  end.

Definition run_actions (actions : list action) (db : DatabaseManager.t)
    : DatabaseManager.t :=
  fold_left run_action actions db.

(** Loop invariant of [create_bill] on a well-keyed catalog: the file holds
    what the in-memory dictionary holds. *)
Definition locals_in_sync (st : BillingService.locals) : Prop :=
  DatabaseManager.load_products (BillingService.db st) = BillingService.products st
  ∧ well_keyed_map (BillingService.products st).

(** A product with its quantity blanked: everything a sale must not touch. *)
Definition sans_quantity (p : Product.t) : Product.t := Product.set_quantity 0 p.

Definition opening_day : list action :=
  [ ActInitDefaults;
    ActEdit (EditAdd rice_l);
    ActOperate (OpCreateBill customer_a [("rice_l", 10); ("gro001", 1)] scenario_uuid
                  some_time);
    ActEdit (EditQuantity "gro002" (-4));
    ActEdit (EditDelete "gro003");
    ActOperate (OpAddStock "rice_l" 5);
    ActInitDefaults ].


(** The flag [bulk_update_inventory] records for one update. *)
Definition accepted (db : DatabaseManager.t) (update : string * Z) : string * bool :=
  (update.1,
   bool_decide (0 ≤ update.2 ∧ is_Some (DatabaseManager.load_products db !! update.1))).

(** The three urgency classes of [check_stock_levels]. *)
Definition is_critical (a : InventoryAlert.t) : Prop :=
  InventoryAlert.current_quantity a < 10.

Definition is_low (a : InventoryAlert.t) : Prop :=
  10 ≤ InventoryAlert.current_quantity a < 50.

Definition is_normal (a : InventoryAlert.t) : Prop :=
  50 ≤ InventoryAlert.current_quantity a.

(** One iteration of the loop of [check_stock_levels]. *)
Definition categorize (categorized : InventoryService.categorized)
    (alert : InventoryAlert.t) : InventoryService.categorized :=
  if InventoryAlert.current_quantity alert <? 10 then
    {| InventoryService.critical := InventoryService.critical categorized ++ [alert];
       InventoryService.low := InventoryService.low categorized;
       InventoryService.normal := InventoryService.normal categorized |}
  else if InventoryAlert.current_quantity alert <? 50 then
    {| InventoryService.critical := InventoryService.critical categorized;
       InventoryService.low := InventoryService.low categorized ++ [alert];
       InventoryService.normal := InventoryService.normal categorized |}
  else
    {| InventoryService.critical := InventoryService.critical categorized;
       InventoryService.low := InventoryService.low categorized;
       InventoryService.normal := InventoryService.normal categorized ++ [alert] |}.


(** What the inventory summary should hold for a category, read off the
    list of products: nothing if no product has the category, otherwise
    the number of its products and the left-to-right sum of their stock
    values. *)
Definition category_entry (c : string) (products : list Product.t)
    : option InventoryService.category_stats :=
  let members := filter (fun p => Product.category p = c) products in
  match members with
  | [] => None
  | _ :: _ =>
      Some (InventoryService.mk_category_stats
              (Z.of_nat (length members))
              (Py.sum_float (omap InventoryService.stock_value members)))
  end.

(** The product's stock value can be computed: its quantity converts to a
    float. *)
Definition priceable (p : Product.t) : Prop :=
  is_Some (Py.float_of_int (Product.quantity p)).

(** The quantity a [POST /bills] request asks of a product: that of the
    last item that names it. *)
Definition requested (items : list Api.BillItemCreate.t) (k : string) : option Z :=
  Api.BillItemCreate.quantity <$>
    List.find (fun item => bool_decide (Api.BillItemCreate.product_id item = k))
              (rev items).

(** The request asks of every product it names no more than is on hand. *)
Definition in_stock (db : DatabaseManager.t) (items : list Api.BillItemCreate.t)
    : Prop :=
  ∀ k q, requested items k = Some q →
    ∃ p, DatabaseManager.load_products db !! k = Some p ∧ q ≤ Product.quantity p.

(** A request that lists rice twice. *)
Definition rice_twice : Api.BillCreate.t :=
  Api.BillCreate.mk (Api.CustomerCreate.mk "A" "5550000" None)
    [ Api.BillItemCreate.mk "gro001" 80;
      Api.BillItemCreate.mk "gro002" 1;
      Api.BillItemCreate.mk "gro001" 30 ].

(** A request for more cooking oil than the shop has. *)
Definition too_much_oil : Api.BillCreate.t :=
  Api.BillCreate.mk (Api.CustomerCreate.mk "A" "5550000" None)
    [ Api.BillItemCreate.mk "gro001" 10;
      Api.BillItemCreate.mk "gro002" 150 ].

(** A price change that leaves every other field alone. *)
Definition new_price : Api.ProductUpdate.t :=
  Api.ProductUpdate.mk None None (Some 3.25%float) None None None.


(** * Properties *)

(** ** The product store *)

Section Store.
Import DatabaseManager.

Lemma from_dict_to_dict (p : Product.t) :
  Product.from_dict (Product.to_dict p) = p.
Proof. by destruct p. Qed.

Lemma to_dict_from_dict (d : Product.dict) :
  Product.to_dict (Product.from_dict d) = d.
Proof. by destruct d. Qed.

(** What was saved is what is loaded next. *)
Lemma load_save_products (products : gmap string Product.t) (db : t) :
  load_products (save_products products db) = products.
Proof.
  unfold load_products, save_products; simpl.
  rewrite <- map_fmap_compose.
  rewrite <- (map_fmap_id products) at 2.
  apply map_fmap_ext. intros k p _. apply from_dict_to_dict.
Qed.

Lemma load_update_product (p : Product.t) (db : t) :
  load_products (update_product p db) = <[Product.id p := p]> (load_products db).
Proof. unfold update_product. apply load_save_products. Qed.

Lemma load_bills_save_products (products : gmap string Product.t) (db : t) :
  load_bills (save_products products db) = load_bills db.
Proof. reflexivity. Qed.

Lemma load_products_add_bill (b : Bill.t) (db : t) :
  load_products (add_bill b db) = load_products db.
Proof. reflexivity. Qed.

Lemma load_bills_add_bill (b : Bill.t) (db : t) :
  load_bills (add_bill b db) = (load_bills db ++ [b])%list.
Proof. reflexivity. Qed.

(** The file entry of an untouched key survives the decode and encode of a
    whole-catalog rewrite. *)
Lemma products_file_update_product_ne (p : Product.t) (db : t) (k : string) :
  k ≠ Product.id p →
  products_file (update_product p db) !! k = products_file db !! k.
Proof.
  intros Hk. unfold update_product, save_products, load_products; simpl.
  rewrite lookup_fmap, lookup_insert_ne by congruence.
  rewrite lookup_fmap.
  destruct (products_file db !! k) as [d|]; simpl; [|done].
  by rewrite to_dict_from_dict.
Qed.

End Store.

(** C10: [update_product p] makes the catalog map [p]'s identifier to [p]
    and rewrites the file so that the persisted record under every other
    identifier, and hence the product loaded from it, is what it was. *)
Theorem update_product_only_touches_its_id (db : DatabaseManager.t) (p : Product.t) :
  DatabaseManager.get_product_by_id (Product.id p) (DatabaseManager.update_product p db)
    = Some p
  ∧ (∀ k, k ≠ Product.id p →
       DatabaseManager.products_file (DatabaseManager.update_product p db) !! k
         = DatabaseManager.products_file db !! k)
  ∧ (∀ k, k ≠ Product.id p →
       DatabaseManager.get_product_by_id k (DatabaseManager.update_product p db)
         = DatabaseManager.get_product_by_id k db).
Proof.
  unfold DatabaseManager.get_product_by_id.
  rewrite load_update_product. split; [|split].
  - apply lookup_insert_eq.
  - intros k Hk. by apply products_file_update_product_ne.
  - intros k Hk. rewrite lookup_insert_ne; [done | congruence].
Qed.

Lemma update_product_only_touches_its_id_witness :
  DatabaseManager.products_file
    (DatabaseManager.update_product
       (Product.mk "gro001" "Rice 1kg" "Grocery" 3.25 100 30 0.05) shop_db) !! "gro002"
  = DatabaseManager.products_file shop_db !! "gro002".
Proof.
  apply (update_product_only_touches_its_id shop_db
           (Product.mk "gro001" "Rice 1kg" "Grocery" 3.25 100 30 0.05)).
  simpl. discriminate.
Defined.

(** ** The billing loop *)

Section Billing.
Import BillingService.

Lemma sum_float_snoc (xs : list float) (x : float) :
  Py.sum_float (xs ++ [x]) = (Py.sum_float xs + x)%float.
Proof. unfold Py.sum_float. by rewrite fold_left_app. Qed.

(** An iteration that falls through found its product in stock, multiplied
    without overflow, and updated the locals as the body's assignments do. *)
Lemma create_bill_body_inr (st st' : locals) (product_id : string) (quantity : Z) :
  create_bill_body st product_id quantity = inr st' →
  ∃ product item_total,
    products st !! product_id = Some product
    ∧ quantity ≤ Product.quantity product
    ∧ Py.float_mul_int (Product.price product) quantity = Some item_total
    ∧ st' =
        {| products :=
             <[product_id :=
                 Product.set_quantity (Product.quantity product - quantity) product]>
               (products st);
           bill_items :=
             bill_items st ++
               [BillItem.mk product_id (Product.name product) quantity
                  (Product.price product) item_total
                  (item_total * Product.tax_rate product)%float];
           subtotal := (subtotal st + item_total)%float;
           total_tax :=
             (total_tax st + item_total * Product.tax_rate product)%float;
           db :=
             DatabaseManager.update_product
               (Product.set_quantity (Product.quantity product - quantity) product)
               (db st) |}.
Proof.
  unfold create_bill_body. intros H.
  destruct (products st !! product_id) as [product|]; [|discriminate].
  destruct (Z.ltb_spec (Product.quantity product) quantity); [discriminate|].
  destruct (Py.float_mul_int (Product.price product) quantity) as [item_total|] eqn:Hmul;
    [|discriminate].
  exists product, item_total. inversion H; subst. by split_and!.
Qed.

Lemma create_bill_body_sums (st st' : locals) (product_id : string) (quantity : Z) :
  create_bill_body st product_id quantity = inr st' →
  sums_agree st → sums_agree st'.
Proof.
  intros (product & item_total & _ & _ & _ & ->)%create_bill_body_inr [Hs Ht].
  unfold sums_agree; simpl.
  rewrite !map_app; simpl. rewrite !sum_float_snoc. by rewrite <- Hs, <- Ht.
Qed.

Lemma create_bill_loop_sums (items : list (string * Z)) (st st' : locals)
    (e : option loop_exit) :
  create_bill_loop items st = (st', e) →
  sums_agree st → sums_agree st'.
Proof.
  revert st. induction items as [|[product_id quantity] rest IH]; intros st H Hs.
  - by inversion H; subst.
  - simpl in H.
    destruct (create_bill_body st product_id quantity) as [x|st1] eqn:Hbody.
    + by inversion H; subst.
    + eapply IH; [exact H|]. by eapply create_bill_body_sums.
Qed.

(** A call that returns a bill ran the loop to its end and assembled the
    bill from the final locals. *)
Lemma create_bill_returns_bill (customer_info : gmap string string)
    (items : list (string * Z)) (uuid4 : string) (now : datetime)
    (self db' : DatabaseManager.t) (b : Bill.t) (lg : list log_record) :
  create_bill customer_info items uuid4 now self = (Returned (Some b), db', lg) →
  ∃ st,
    create_bill_loop items (create_bill_init self) = (st, None)
    ∧ Bill.items b = bill_items st
    ∧ Bill.subtotal b = subtotal st
    ∧ Bill.tax_amount b = total_tax st
    ∧ Bill.total_amount b = (subtotal st + total_tax st)%float
    ∧ Bill.created_at b = now
    ∧ Bill.status b = "completed"
    ∧ db' = DatabaseManager.add_bill b (db st)
    ∧ lg = [InfoBillCreated (Bill.id b)].
Proof.
  unfold create_bill. intros H.
  destruct (create_bill_loop items (create_bill_init self)) as [st [[]|]];
    inversion H; subst; clear H.
  by exists st.
Qed.

End Billing.

(** C4: in every bill [create_bill] returns, the total is the subtotal plus
    the tax, the subtotal is the sum of the line totals and the tax is the
    sum of the line taxes; the sums are Python's, taken left to right in
    binary64, and the equalities are identities of float values. *)
Theorem create_bill_totals_exact (customer_info : gmap string string)
    (items : list (string * Z)) (uuid4 : string) (now : datetime)
    (self db' : DatabaseManager.t) (b : Bill.t)
    (lg : list BillingService.log_record) :
  BillingService.create_bill customer_info items uuid4 now self
    = (BillingService.Returned (Some b), db', lg) →
  Bill.total_amount b = (Bill.subtotal b + Bill.tax_amount b)%float
  ∧ Bill.subtotal b = Py.sum_float (List.map BillItem.total_price (Bill.items b))
  ∧ Bill.tax_amount b = Py.sum_float (List.map BillItem.tax_amount (Bill.items b)).
Proof.
  intros (st & Hloop & -> & -> & -> & -> & _)%create_bill_returns_bill.
  split; [done|].
  eapply create_bill_loop_sums; [exact Hloop|]. by split.
Qed.

Lemma create_bill_totals_exact_witness :
  Bill.total_amount scenario_bill
    = (Bill.subtotal scenario_bill + Bill.tax_amount scenario_bill)%float
  ∧ Bill.subtotal scenario_bill
    = Py.sum_float (List.map BillItem.total_price (Bill.items scenario_bill))
  ∧ Bill.tax_amount scenario_bill
    = Py.sum_float (List.map BillItem.tax_amount (Bill.items scenario_bill)).
Proof.
  apply (create_bill_totals_exact customer_a [("rice_l", 10)] scenario_uuid some_time
           scenario_db scenario_call.1.2 scenario_bill scenario_call.2).
  vm_compute. reflexivity.
Defined.

(** ** Line items against the catalog *)

Section Lines.
Import BillingService.

Lemma pricing_set_quantity (q : Z) (p : Product.t) :
  pricing (Product.set_quantity q p) = pricing p.
Proof. reflexivity. Qed.

Lemma pricing_lookup (m1 m0 : gmap string Product.t) (k : string) (p : Product.t) :
  pricing <$> m1 = pricing <$> m0 →
  m1 !! k = Some p →
  ∃ p0, m0 !! k = Some p0 ∧ pricing p0 = pricing p.
Proof.
  intros Heq Hk.
  assert (Hv : (pricing <$> m0) !! k = Some (pricing p)).
  { by rewrite <- Heq, lookup_fmap, Hk. }
  rewrite lookup_fmap in Hv.
  destruct (m0 !! k) as [p0|]; simpl in Hv; [|discriminate].
  exists p0. split; [done|]. congruence.
Qed.

Lemma billed_line_pricing (m1 m0 : gmap string Product.t) (line : string * Z)
    (item : BillItem.t) :
  pricing <$> m1 = pricing <$> m0 →
  billed_line m1 line item → billed_line m0 line item.
Proof.
  intros Heq (p & Hp & Hid & Hname & Hq & Hprice & Htotal & Htax).
  destruct (pricing_lookup _ _ _ _ Heq Hp) as (p0 & Hp0 & Hpr).
  unfold pricing in Hpr. injection Hpr as Hn Hpc Htr.
  exists p0. rewrite Hn, Hpc, Htr. by split_and!.
Qed.

(** The loop changes quantities only: names, prices and tax rates of the
    in-memory catalog stay what they were when it was loaded. *)
Lemma create_bill_body_pricing (st st' : locals) (product_id : string) (quantity : Z) :
  create_bill_body st product_id quantity = inr st' →
  pricing <$> products st' = pricing <$> products st.
Proof.
  intros (product & item_total & Hp & _ & _ & ->)%create_bill_body_inr. simpl.
  rewrite fmap_insert, pricing_set_quantity.
  apply insert_id. by rewrite lookup_fmap, Hp.
Qed.

Lemma create_bill_body_line (st st' : locals) (product_id : string) (quantity : Z) :
  create_bill_body st product_id quantity = inr st' →
  ∃ item,
    bill_items st' = bill_items st ++ [item]
    ∧ billed_line (products st) (product_id, quantity) item.
Proof.
  intros (product & item_total & Hp & _ & Hmul & ->)%create_bill_body_inr. simpl.
  eexists. split; [reflexivity|].
  exists product. by split_and!.
Qed.

Lemma create_bill_loop_lines (items : list (string * Z)) (st st' : locals) :
  create_bill_loop items st = (st', None) →
  ∃ new_items,
    bill_items st' = bill_items st ++ new_items
    ∧ Forall2 (billed_line (products st)) items new_items
    ∧ pricing <$> products st' = pricing <$> products st.
Proof.
  revert st. induction items as [|[product_id quantity] rest IH]; intros st H.
  - inversion H; subst. exists []. by rewrite app_nil_r.
  - simpl in H.
    destruct (create_bill_body st product_id quantity) as [x|st1] eqn:Hbody;
      [discriminate|].
    destruct (IH _ H) as (new_items & Hitems & Hlines & Hpricing).
    destruct (create_bill_body_line _ _ _ _ Hbody) as (item & Hitem & Hline).
    pose proof (create_bill_body_pricing _ _ _ _ Hbody) as Hstep.
    exists (item :: new_items). split_and!.
    + by rewrite Hitems, Hitem, <- app_assoc.
    + constructor; [done|].
      eapply Forall2_impl; [exact Hlines|].
      intros line it. by apply billed_line_pricing.
    + by rewrite Hpricing.
Qed.

End Lines.

(** C5: every line of a returned bill carries, for its request in iteration
    order, the product's unit price, the line total [price * quantity] and
    the tax [total * tax_rate], and the bill's sums accumulate them in that
    order.  In particular, in any catalog whose "rice_l" costs 3.00 at tax
    rate 0.05 with 100 on hand, billing 10 units returns a bill with line
    total 30.00, line tax 1.50 and total 31.50, and leaves 90 on hand. *)
Theorem create_bill_line_amounts :
  (∀ (customer_info : gmap string string) (items : list (string * Z))
     (uuid4 : string) (now : datetime) (self db' : DatabaseManager.t)
     (b : Bill.t) (lg : list BillingService.log_record),
     BillingService.create_bill customer_info items uuid4 now self
       = (BillingService.Returned (Some b), db', lg) →
     Forall2 (billed_line (DatabaseManager.load_products self)) items (Bill.items b)
     ∧ Bill.subtotal b
       = fold_left PrimFloat.add (List.map BillItem.total_price (Bill.items b)) 0%float
     ∧ Bill.tax_amount b
       = fold_left PrimFloat.add (List.map BillItem.tax_amount (Bill.items b)) 0%float
     ∧ Bill.total_amount b = (Bill.subtotal b + Bill.tax_amount b)%float)
  ∧ (∀ (customer_info : gmap string string) (uuid4 : string) (now : datetime)
       (self : DatabaseManager.t) (p : Product.t),
       DatabaseManager.load_products self !! "rice_l" = Some p →
       Product.id p = "rice_l" →
       Product.price p = 3%float →
       Product.tax_rate p = 0.05%float →
       Product.quantity p = 100 →
       ∃ b db' lg item,
         BillingService.create_bill customer_info [("rice_l", 10)] uuid4 now self
           = (BillingService.Returned (Some b), db', lg)
         ∧ Bill.items b = [item]
         ∧ BillItem.total_price item = 30%float
         ∧ BillItem.tax_amount item = 1.5%float
         ∧ Bill.total_amount b = 31.5%float
         ∧ Product.quantity <$> DatabaseManager.load_products db' !! "rice_l" = Some 90).
Proof.
  split.
  - intros customer_info items uuid4 now self db' b lg H.
    apply create_bill_returns_bill in H
      as (st & Hloop & Hitems & Hsub & Htax & Htot & _).
    destruct (create_bill_loop_lines _ _ _ Hloop) as (new_items & Hnew & Hlines & _).
    destruct (create_bill_loop_sums _ _ _ _ Hloop) as [Hs Ht]; [by split|].
    simpl in Hnew. rewrite Hitems, Hsub, Htax, Htot, Hnew.
    split_and!; [done | by rewrite Hs, Hnew | by rewrite Ht, Hnew | done].
  - intros customer_info uuid4 now self p Hp Hid Hprice Hrate Hqty.
    unfold BillingService.create_bill; simpl.
    unfold BillingService.create_bill_body; simpl.
    rewrite Hp, Hqty, Hprice, Hrate; simpl.
    do 4 eexists. split; [reflexivity|]. simpl.
    split_and!; try reflexivity.
    rewrite load_products_add_bill, load_update_product; simpl.
    rewrite Hid, lookup_insert_eq. reflexivity.
Qed.

Lemma create_bill_line_amounts_witness :
  Forall2 (billed_line (DatabaseManager.load_products scenario_db))
    [("rice_l", 10)] (Bill.items scenario_bill)
  ∧ (∃ b db' lg item,
       scenario_call = (BillingService.Returned (Some b), db', lg)
       ∧ Bill.items b = [item]
       ∧ BillItem.total_price item = 30%float
       ∧ BillItem.tax_amount item = 1.5%float
       ∧ Bill.total_amount b = 31.5%float
       ∧ Product.quantity <$> DatabaseManager.load_products db' !! "rice_l" = Some 90).
Proof.
  split.
  - apply (proj1 create_bill_line_amounts customer_a [("rice_l", 10)] scenario_uuid
             some_time scenario_db scenario_call.1.2 scenario_bill scenario_call.2).
    vm_compute. reflexivity.
  - apply (proj2 create_bill_line_amounts customer_a scenario_uuid some_time
             scenario_db rice_l); vm_compute; reflexivity.
Defined.

(** ** Bills and catalog edits *)

Section BillStore.
Import BillingService.

(** The loop writes [products.json] only. *)
Lemma create_bill_loop_bills (items : list (string * Z)) (st st' : locals)
    (e : option loop_exit) :
  create_bill_loop items st = (st', e) →
  DatabaseManager.load_bills (db st') = DatabaseManager.load_bills (db st).
Proof.
  revert st. induction items as [|[product_id quantity] rest IH]; intros st H.
  - by inversion H.
  - simpl in H.
    destruct (create_bill_body st product_id quantity) as [x|st1] eqn:Hbody.
    + by inversion H.
    + rewrite (IH _ H).
      by apply create_bill_body_inr in Hbody as (product & item_total & _ & _ & _ & ->).
Qed.

Lemma apply_edit_bills (db : DatabaseManager.t) (e : catalog_edit) :
  DatabaseManager.load_bills (apply_edit db e) = DatabaseManager.load_bills db.
Proof.
  destruct e as [p|p|k|k q]; simpl; try reflexivity.
  - unfold DatabaseManager.delete_product.
    by destruct (DatabaseManager.load_products db !! k).
  - unfold DatabaseManager.update_product_quantity.
    by destruct (DatabaseManager.load_products db !! k).
Qed.

Lemma apply_edits_bills (edits : list catalog_edit) (db : DatabaseManager.t) :
  DatabaseManager.load_bills (apply_edits edits db) = DatabaseManager.load_bills db.
Proof.
  revert db. induction edits as [|e edits IH]; intros db; [done|].
  unfold apply_edits in *; simpl. by rewrite IH, apply_edit_bills.
Qed.

End BillStore.

(** C8: the line items of a returned bill hold the name, unit price, line
    total and tax computed from the catalog as it was when the sale was
    made; the bill is stored at the end of the bill history, and no sequence
    of later catalog edits (adding, replacing or deleting a product, or
    setting a quantity) changes the stored history or what a lookup by bill
    identifier returns. *)
Theorem bill_snapshot_survives_catalog_edits (customer_info : gmap string string)
    (items : list (string * Z)) (uuid4 : string) (now : datetime)
    (self db' : DatabaseManager.t) (b : Bill.t)
    (lg : list BillingService.log_record) (edits : list catalog_edit) :
  BillingService.create_bill customer_info items uuid4 now self
    = (BillingService.Returned (Some b), db', lg) →
  Forall2 (billed_line (DatabaseManager.load_products self)) items (Bill.items b)
  ∧ DatabaseManager.load_bills db' = DatabaseManager.load_bills self ++ [b]
  ∧ DatabaseManager.load_bills (apply_edits edits db')
    = DatabaseManager.load_bills self ++ [b]
  ∧ ∀ bill_id,
      BillingService.get_bill_by_id bill_id (apply_edits edits db')
      = BillingService.get_bill_by_id bill_id db'.
Proof.
  intros H.
  apply create_bill_returns_bill in H as (st & Hloop & Hitems & _ & _ & _ & _ & _ & -> & _).
  destruct (create_bill_loop_lines _ _ _ Hloop) as (new_items & Hnew & Hlines & _).
  pose proof (create_bill_loop_bills _ _ _ _ Hloop) as Hbills.
  simpl in Hnew, Hbills.
  assert (Hstored : DatabaseManager.load_bills
                      (DatabaseManager.add_bill b (BillingService.db st))
                    = DatabaseManager.load_bills self ++ [b]).
  { by rewrite load_bills_add_bill, Hbills. }
  split_and!.
  - by rewrite Hitems, Hnew.
  - exact Hstored.
  - by rewrite apply_edits_bills.
  - intros bill_id.
    unfold BillingService.get_bill_by_id, DatabaseManager.get_bill_by_id.
    by rewrite apply_edits_bills.
Qed.

Lemma bill_snapshot_survives_catalog_edits_witness :
  DatabaseManager.load_bills
    (apply_edits
       [EditUpdate (Product.mk "rice_l" "Rice (new)" "Grocery" 20 90 30 0.5);
        EditDelete "rice_l"]
       scenario_call.1.2)
  = DatabaseManager.load_bills scenario_db ++ [scenario_bill].
Proof.
  apply (bill_snapshot_survives_catalog_edits customer_a [("rice_l", 10)]
           scenario_uuid some_time scenario_db scenario_call.1.2 scenario_bill
           scenario_call.2).
  vm_compute. reflexivity.
Defined.

(** ** The stock invariant *)

Section Stock.
Import BillingService.

Lemma stock_nonneg_update_product (p : Product.t) (db : DatabaseManager.t) :
  0 ≤ Product.quantity p →
  stock_nonneg db → stock_nonneg (DatabaseManager.update_product p db).
Proof.
  unfold stock_nonneg. intros Hp Hdb.
  rewrite load_update_product. by apply map_Forall_insert_2.
Qed.

Lemma create_bill_body_nonneg (st st' : locals) (product_id : string) (quantity : Z) :
  create_bill_body st product_id quantity = inr st' →
  locals_nonneg st → locals_nonneg st'.
Proof.
  intros (product & item_total & Hp & Hle & _ & ->)%create_bill_body_inr [Hmem Hdb].
  assert (0 ≤ Product.quantity product - quantity) by lia.
  split; simpl.
  - by apply map_Forall_insert_2.
  - by apply stock_nonneg_update_product.
Qed.

Lemma create_bill_loop_nonneg (items : list (string * Z)) (st st' : locals)
    (e : option loop_exit) :
  create_bill_loop items st = (st', e) →
  locals_nonneg st → locals_nonneg st'.
Proof.
  revert st. induction items as [|[product_id quantity] rest IH]; intros st H Hst.
  - by inversion H; subst.
  - simpl in H.
    destruct (create_bill_body st product_id quantity) as [x|st1] eqn:Hbody.
    + by inversion H; subst.
    + eapply IH; [exact H|]. by eapply create_bill_body_nonneg.
Qed.

(** However [create_bill] ends (a bill, [None], or an exception), the
    catalog it leaves behind has no negative quantity. *)
Lemma create_bill_nonneg (customer_info : gmap string string)
    (items : list (string * Z)) (uuid4 : string) (now : datetime)
    (self : DatabaseManager.t) :
  stock_nonneg self →
  stock_nonneg (create_bill customer_info items uuid4 now self).1.2.
Proof.
  intros Hself. unfold create_bill.
  destruct (create_bill_loop items (create_bill_init self)) as [st e] eqn:Hloop.
  assert (Hst : locals_nonneg st).
  { eapply create_bill_loop_nonneg; [exact Hloop|]. by split. }
  destruct Hst as [_ Hdb].
  by destruct e as [[]|].
Qed.

Lemma update_product_quantity_nonneg (product_id : string) (new_quantity : Z)
    (self : DatabaseManager.t) :
  stock_nonneg self →
  stock_nonneg (InventoryService.update_product_quantity product_id new_quantity self).2.
Proof.
  intros Hself. unfold InventoryService.update_product_quantity.
  destruct (Z.ltb_spec new_quantity 0); [done|].
  destruct (DatabaseManager.get_product_by_id product_id self); [|done].
  by apply stock_nonneg_update_product.
Qed.

Lemma add_stock_nonneg (product_id : string) (quantity : Z)
    (self : DatabaseManager.t) :
  stock_nonneg self →
  stock_nonneg (InventoryService.add_stock product_id quantity self).2.
Proof.
  intros Hself. unfold InventoryService.add_stock.
  destruct (InventoryService.get_product_by_id product_id self); [|done].
  by apply update_product_quantity_nonneg.
Qed.

Lemma bulk_update_fold_nonneg (updates : list (string * Z))
    (results : list (string * bool)) (self : DatabaseManager.t) :
  stock_nonneg self →
  stock_nonneg (fold_left InventoryService.bulk_update_body updates (results, self)).2.
Proof.
  revert results self.
  induction updates as [|[product_id new_quantity] rest IH]; intros results self Hself;
    [done|].
  simpl.
  pose proof (update_product_quantity_nonneg product_id new_quantity self Hself) as Hstep.
  destruct (InventoryService.update_product_quantity product_id new_quantity self)
    as [success db1].
  by apply IH.
Qed.

Lemma bulk_update_inventory_nonneg (updates : list (string * Z))
    (self : DatabaseManager.t) :
  stock_nonneg self →
  stock_nonneg (InventoryService.bulk_update_inventory updates self).2.
Proof. apply bulk_update_fold_nonneg. Qed.

Lemma run_operation_nonneg (db : DatabaseManager.t) (op : operation) :
  stock_nonneg db → stock_nonneg (run_operation db op).
Proof.
  destruct op; simpl.
  - apply create_bill_nonneg.
  - apply update_product_quantity_nonneg.
  - apply add_stock_nonneg.
  - apply bulk_update_inventory_nonneg.
Qed.

Lemma run_operations_nonneg (ops : list operation) (db : DatabaseManager.t) :
  stock_nonneg db → stock_nonneg (run_operations ops db).
Proof.
  revert db. induction ops as [|op ops IH]; intros db Hdb; [done|].
  unfold run_operations in *; simpl. by apply IH, run_operation_nonneg.
Qed.

End Stock.

(** C2: starting from a catalog without negative quantities, after every
    step of every sequence of billing transactions, quantity updates and
    restocks no product has a negative quantity on hand. *)
Theorem quantity_never_negative (db : DatabaseManager.t) (ops : list operation)
    (n : nat) :
  stock_nonneg db →
  stock_nonneg (run_operations (take n ops) db).
Proof. apply run_operations_nonneg. Qed.

Lemma quantity_never_negative_witness :
  stock_nonneg (run_operations (take 6 busy_day) shop_db).
Proof.
  apply (quantity_never_negative shop_db busy_day 6).
  unfold stock_nonneg. apply (bool_decide_unpack _). vm_compute. exact I.
Defined.

(** ** Low-stock alerts *)

Section Alerts.

Lemma elem_of_get_all_products (self : DatabaseManager.t) (p : Product.t) :
  p ∈ DatabaseManager.get_all_products self
  ↔ ∃ k, DatabaseManager.load_products self !! k = Some p.
Proof.
  unfold DatabaseManager.get_all_products. rewrite list_elem_of_fmap. split.
  - intros ([k p'] & -> & Hin). exists k. by apply elem_of_map_to_list.
  - intros [k Hk]. exists (k, p). split; [done|]. by apply elem_of_map_to_list.
Qed.

(** The products the inventory service reports as low are those of the
    catalog below their minimum. *)
Lemma elem_of_get_low_stock_products (self : DatabaseManager.t) (p : Product.t) :
  p ∈ InventoryService.get_low_stock_products self
  ↔ (∃ k, DatabaseManager.load_products self !! k = Some p)
    ∧ Product.quantity p < Product.min_stock_level p.
Proof.
  unfold InventoryService.get_low_stock_products, InventoryService.get_all_products.
  rewrite list_elem_of_filter, elem_of_get_all_products. tauto.
Qed.

Lemma get_low_stock_alerts_map (self : DatabaseManager.t) :
  InventoryService.get_low_stock_alerts self
  = List.map alert_to_100 (InventoryService.get_low_stock_products self).
Proof. reflexivity. Qed.

Lemma check_stock_levels_shadowed_map (self : DatabaseManager.t) :
  InventoryService.check_stock_levels_shadowed self
  = List.map alert_max_rule (InventoryService.get_low_stock_products self).
Proof.
  unfold InventoryService.check_stock_levels_shadowed,
    InventoryService.get_low_stock_products.
  apply map_ext. intros p. unfold alert_max_rule. by rewrite Z.mul_comm.
Qed.

Lemma elem_of_map_low_stock (f : Product.t → InventoryAlert.t)
    (self : DatabaseManager.t) (a : InventoryAlert.t) :
  a ∈ List.map f (InventoryService.get_low_stock_products self)
  ↔ ∃ k p, DatabaseManager.load_products self !! k = Some p
           ∧ Product.quantity p < Product.min_stock_level p
           ∧ a = f p.
Proof.
  rewrite list_elem_of_In, in_map_iff. split.
  - intros (p & <- & Hin).
    apply list_elem_of_In, elem_of_get_low_stock_products in Hin as [[k Hk] Hlt].
    by exists k, p.
  - intros (k & p & Hk & Hlt & ->). exists p. split; [done|].
    apply list_elem_of_In, elem_of_get_low_stock_products. split; [by exists k|done].
Qed.

End Alerts.

(** C7, as the code has it: both alert paths produce one alert for each
    product whose quantity is strictly below its minimum stock level and for
    no other.  [get_low_stock_alerts] (through
    [DatabaseManager.get_low_stock_products]) suggests ordering
    [100 - quantity]; the rule [max(50, 2 * min_stock_level)] is the one of
    [check_stock_levels] as the class first defines it. *)
Theorem low_stock_alerts_rules (self : DatabaseManager.t) :
  (∀ p, p ∈ InventoryService.get_low_stock_products self
        ↔ (∃ k, DatabaseManager.load_products self !! k = Some p)
          ∧ Product.quantity p < Product.min_stock_level p)
  ∧ InventoryService.get_low_stock_alerts self
    = List.map alert_to_100 (InventoryService.get_low_stock_products self)
  ∧ InventoryService.check_stock_levels_shadowed self
    = List.map alert_max_rule (InventoryService.get_low_stock_products self)
  ∧ (∀ a, a ∈ InventoryService.get_low_stock_alerts self
          ↔ ∃ k p, DatabaseManager.load_products self !! k = Some p
                   ∧ Product.quantity p < Product.min_stock_level p
                   ∧ a = alert_to_100 p)
  ∧ (∀ a, a ∈ InventoryService.check_stock_levels_shadowed self
          ↔ ∃ k p, DatabaseManager.load_products self !! k = Some p
                   ∧ Product.quantity p < Product.min_stock_level p
                   ∧ a = alert_max_rule p).
Proof.
  split_and!.
  - apply elem_of_get_low_stock_products.
  - apply get_low_stock_alerts_map.
  - apply check_stock_levels_shadowed_map.
  - intros a. rewrite get_low_stock_alerts_map. apply elem_of_map_low_stock.
  - intros a. rewrite check_stock_levels_shadowed_map. apply elem_of_map_low_stock.
Qed.

(** C7 as stated fails for [get_low_stock_alerts]: with ten units of
    "gro001" left and a minimum of 30, the one alert suggests 90, not
    [max(50, 2 * 30) = 60]. *)
Lemma low_stock_alert_suggests_to_100 :
  InventoryService.get_low_stock_alerts low_rice_db
    = [InventoryAlert.mk "gro001" "Rice 1kg" 10 30 90]
  ∧ ¬ (∀ a, a ∈ InventoryService.get_low_stock_alerts low_rice_db →
            InventoryAlert.suggested_order_quantity a
            = Z.max 50 (2 * InventoryAlert.min_required a)).
Proof.
  assert (H : InventoryService.get_low_stock_alerts low_rice_db
              = [InventoryAlert.mk "gro001" "Rice 1kg" 10 30 90]).
  { vm_compute. reflexivity. }
  split; [exact H|].
  intros Hall. specialize (Hall (InventoryAlert.mk "gro001" "Rice 1kg" 10 30 90)).
  rewrite H in Hall. specialize (Hall (list_elem_of_here _ _)). discriminate Hall.
Qed.

(** ** The daily sales summary *)

(** C9: the summary for a date is taken over exactly the bills of the
    history created on that calendar date (the history splits into those,
    in history order, and the bills of other dates): it reports their
    number, the sum of their totals, the number of their line items, and as
    average the sum divided by the number, or 0 when there is none. *)
Theorem daily_sales_summary_correct (date : datetime) (self : DatabaseManager.t) :
  ∃ daily others,
    DatabaseManager.load_bills self ≡ₚ daily ++ others
    ∧ sublist daily (DatabaseManager.load_bills self)
    ∧ Forall (fun b => dt_date (Bill.created_at b) = dt_date date) daily
    ∧ Forall (fun b => dt_date (Bill.created_at b) ≠ dt_date date) others
    ∧ BillingService.s_date (BillingService.get_daily_sales_summary date self)
      = dt_date date
    ∧ BillingService.total_bills (BillingService.get_daily_sales_summary date self)
      = Z.of_nat (length daily)
    ∧ BillingService.total_sales (BillingService.get_daily_sales_summary date self)
      = Py.sum_float (List.map Bill.total_amount daily)
    ∧ BillingService.total_items (BillingService.get_daily_sales_summary date self)
      = Py.sum_int (List.map (fun b => Z.of_nat (length (Bill.items b))) daily)
    ∧ BillingService.average_bill_value
        (BillingService.get_daily_sales_summary date self)
      = match daily with
        | [] => 0%float
        | _ :: _ =>
            (Py.sum_float (List.map Bill.total_amount daily)
             / Py.int_to_float (Z.of_nat (length daily)))%float
        end.
Proof.
  set (P := fun b : Bill.t => dt_date (Bill.created_at b) = dt_date date).
  exists (filter P (DatabaseManager.load_bills self)),
         (filter (fun b => ¬ P b) (DatabaseManager.load_bills self)).
  split_and!; try reflexivity.
  - symmetry. apply filter_app_complement.
  - apply sublist_filter.
  - apply Forall_forall. intros b Hb. by apply list_elem_of_filter in Hb as [? _].
  - apply Forall_forall. intros b Hb. by apply list_elem_of_filter in Hb as [? _].
  - unfold BillingService.get_daily_sales_summary; simpl. fold P.
    unfold Py.len.
    destruct (filter P (DatabaseManager.load_bills self)) as [|b daily]; [done|].
    replace (0 <? Z.of_nat (length (b :: daily))) with true; [done|].
    symmetry. apply Z.ltb_lt. simpl. lia.
Qed.

(** The summary of 15 March counts the morning and the evening bill
    (31.5 + 10.5 over two bills), and a day without bills averages 0. *)
Example daily_sales_summary_15_march :
  BillingService.get_daily_sales_summary some_time history_db
    = BillingService.mk_summary (mkDate 2024 3 15) 42 2 2 21
  ∧ BillingService.get_daily_sales_summary
      (mkDatetime (mkDate 2024 3 17) 0 0 0 0) history_db
    = BillingService.mk_summary (mkDate 2024 3 17) 0 0 0 0.
Proof. split; vm_compute; reflexivity. Qed.

(** ** Validation order *)

Section Validation.
Import BillingService.

Lemma float_mul_int_convertible (x : float) (line : string * Z) :
  convertible line → is_Some (Py.float_mul_int x line.2).
Proof.
  unfold convertible, Py.float_mul_int. intros [f ->]. by eexists.
Qed.

(** With distinct keys, each line is checked against the quantity the
    catalog had when it was loaded: an earlier iteration has only changed
    other products. *)
Lemma create_bill_loop_first_rejection (products0 : gmap string Product.t)
    (items : list (string * Z)) (st : locals) :
  NoDup items.*1 →
  Forall convertible items →
  (∀ k, k ∈ items.*1 → products st !! k = products0 !! k) →
  ∃ st',
    create_bill_loop items st = (st', rejection_exit <$> first_rejection products0 items).
Proof.
  revert st. induction items as [|[product_id quantity] rest IH];
    intros st Hnodup Hconv Hagree.
  - by exists st.
  - apply NoDup_cons in Hnodup as [Hfresh Hnodup].
    apply Forall_cons in Hconv as [Hq Hconv].
    pose proof (Hagree product_id (list_elem_of_here _ _)) as Hhere.
    simpl. unfold check_line, create_bill_body; simpl. rewrite Hhere.
    destruct (products0 !! product_id) as [product|]; [|by exists st].
    destruct (Product.quantity product <? quantity); [by exists st|].
    destruct (float_mul_int_convertible (Product.price product) _ Hq)
      as [item_total Hmul].
    simpl in Hmul. rewrite Hmul.
    apply IH; [done | done |]. simpl.
    intros k Hk. rewrite lookup_insert_ne.
    + apply Hagree. by apply list_elem_of_further.
    + intros ->. by apply Hfresh.
Qed.

Lemma first_rejection_Some (products : gmap string Product.t)
    (items : list (string * Z)) :
  is_Some (first_rejection products items)
  ↔ ∃ line, line ∈ items ∧ is_Some (check_line products line).
Proof.
  induction items as [|line rest IH]; simpl.
  - split; [by intros [? ?] | by intros (? & ?%not_elem_of_nil & _)].
  - destruct (check_line products line) as [r|] eqn:Hline.
    + split; [|by eexists]. intros _. exists line. rewrite Hline.
      split; [apply list_elem_of_here | by eexists].
    + rewrite IH. split.
      * intros (l & Hl & Hr). exists l. split; [by apply list_elem_of_further | done].
      * intros (l & [->|Hl]%elem_of_cons & Hr).
        -- rewrite Hline in Hr. by destruct Hr.
        -- by exists l.
Qed.

End Validation.

(** C6, as the code has it: for a request with distinct keys and
    quantities that convert to float, [create_bill] checks the lines in
    iteration order, each first for existence and then for stock, against
    the catalog as loaded.  At the first line that fails it returns no bill
    and logs either the missing identifier or the product's name with the
    quantity available (the requested quantity is not part of the message);
    if no line fails it returns a bill.  So it returns no bill exactly when
    some line violates one of the two preconditions. *)
Theorem create_bill_validation_order (customer_info : gmap string string)
    (items : list (string * Z)) (uuid4 : string) (now : datetime)
    (self : DatabaseManager.t) :
  NoDup items.*1 →
  Forall convertible items →
  match first_rejection (DatabaseManager.load_products self) items with
  | Some r =>
      (BillingService.create_bill customer_info items uuid4 now self).1.1
        = BillingService.Returned None
      ∧ (BillingService.create_bill customer_info items uuid4 now self).2
        = [rejection_log r]
  | None =>
      ∃ b, (BillingService.create_bill customer_info items uuid4 now self).1.1
           = BillingService.Returned (Some b)
  end
  ∧ ((BillingService.create_bill customer_info items uuid4 now self).1.1
       = BillingService.Returned None
     ↔ ∃ line, line ∈ items
               ∧ is_Some (check_line (DatabaseManager.load_products self) line)).
Proof.
  intros Hnodup Hconv.
  destruct (create_bill_loop_first_rejection (DatabaseManager.load_products self)
              items (BillingService.create_bill_init self) Hnodup Hconv)
    as [st Hloop]; [done|].
  rewrite <- first_rejection_Some.
  unfold BillingService.create_bill. rewrite Hloop.
  destruct (first_rejection (DatabaseManager.load_products self) items)
    as [[product_id|product_name available]|]; simpl.
  - split; [done|]. split; [by eexists | done].
  - split; [done|]. split; [by eexists | done].
  - split; [by eexists|]. split; [discriminate | by intros [? ?]].
Qed.

Lemma create_bill_validation_order_witness :
  (BillingService.create_bill customer_a mixed_request scenario_uuid some_time
     shop_db).1.1
    = BillingService.Returned None
  ∧ (BillingService.create_bill customer_a mixed_request scenario_uuid some_time
       shop_db).2
    = [BillingService.ErrorProductNotFound "nope"].
Proof.
  refine (proj1 (create_bill_validation_order customer_a mixed_request scenario_uuid
                   some_time shop_db _ _)).
  - apply (bool_decide_unpack _). vm_compute. exact I.
  - apply (bool_decide_unpack _). vm_compute. exact I.
Defined.

(** C6 as stated fails on the insufficient-stock report: asking for 150 or
    for 200 units of a product with 100 on hand ends in the same return
    value, the same database and the same log record, which carries the
    product's name and the available quantity only. *)
Lemma insufficient_stock_report_omits_requested :
  BillingService.create_bill customer_a [("rice_l", 150)] scenario_uuid some_time
    scenario_db
    = (BillingService.Returned None, scenario_db,
       [BillingService.ErrorInsufficientStock "Rice" 100])
  ∧ BillingService.create_bill customer_a [("rice_l", 200)] scenario_uuid some_time
      scenario_db
    = (BillingService.Returned None, scenario_db,
       [BillingService.ErrorInsufficientStock "Rice" 100])
  ∧ ¬ ∃ requested_of :
        BillingService.outcome * DatabaseManager.t * list BillingService.log_record → Z,
        ∀ q, 100 < q →
             requested_of
               (BillingService.create_bill customer_a [("rice_l", q)] scenario_uuid
                  some_time scenario_db)
             = q.
Proof.
  assert (H150 : BillingService.create_bill customer_a [("rice_l", 150)] scenario_uuid
                   some_time scenario_db
                 = (BillingService.Returned None, scenario_db,
                    [BillingService.ErrorInsufficientStock "Rice" 100])).
  { vm_compute. reflexivity. }
  assert (H200 : BillingService.create_bill customer_a [("rice_l", 200)] scenario_uuid
                   some_time scenario_db
                 = (BillingService.Returned None, scenario_db,
                    [BillingService.ErrorInsufficientStock "Rice" 100])).
  { vm_compute. reflexivity. }
  split_and!; [exact H150 | exact H200 |].
  intros [requested_of Hread].
  pose proof (Hread 150 ltac:(lia)) as Ha.
  pose proof (Hread 200 ltac:(lia)) as Hb.
  rewrite H150 in Ha. rewrite H200 in Hb. lia.
Qed.

(** ** Where the transaction is not all-or-nothing *)

(** C1 at Scenario D: the second line asks for 150 units of "gro002" with
    100 on hand, so [create_bill] returns no bill and stores none; but the
    first line had already been decremented and persisted, and "gro001"
    stays at 90 instead of 100. *)
Theorem create_bill_rejected_keeps_earlier_decrement :
  partial_call.1.1 = BillingService.Returned None
  ∧ partial_call.2 = [BillingService.ErrorInsufficientStock "Cooking Oil 1L" 100]
  ∧ DatabaseManager.load_bills partial_call.1.2 = DatabaseManager.load_bills shop_db
  ∧ Product.quantity <$> DatabaseManager.load_products shop_db !! "gro001" = Some 100
  ∧ Product.quantity <$> DatabaseManager.load_products partial_call.1.2 !! "gro001"
    = Some 90
  ∧ Product.quantity <$> DatabaseManager.load_products partial_call.1.2 !! "gro002"
    = Some 100.
Proof. split_and!; vm_compute; reflexivity. Qed.

(** C3 at a negative and at a zero quantity: [validate_quantity] rejects
    both before it loads the catalog, but [create_bill] never calls it.  A
    request for -5 units of "gro001" returns a bill of -15.75 and raises the
    stock from 100 to 105; a request for 0 units returns a bill of 0. *)
Theorem create_bill_accepts_non_positive_quantity :
  BillingService.validate_quantity "gro001" (-5) shop_db
    = (false, BillingService.QuantityMustBePositive)
  ∧ BillingService.validate_quantity "gro001" 0 shop_db
    = (false, BillingService.QuantityMustBePositive)
  ∧ (∃ b, negative_call.1.1 = BillingService.Returned (Some b)
          ∧ Bill.items b = [BillItem.mk "gro001" "Rice 1kg" (-5) 3 (-15) (-0.75)]
          ∧ Bill.total_amount b = (-15.75)%float
          ∧ DatabaseManager.load_bills negative_call.1.2 = [b])
  ∧ Product.quantity <$> DatabaseManager.load_products negative_call.1.2 !! "gro001"
    = Some 105
  ∧ (∃ b, zero_call.1.1 = BillingService.Returned (Some b)
          ∧ Bill.items b = [BillItem.mk "gro001" "Rice 1kg" 0 3 0 0]
          ∧ Bill.total_amount b = 0%float
          ∧ DatabaseManager.load_bills zero_call.1.2 = [b]).
Proof.
  split_and!; try (vm_compute; reflexivity).
  - eexists. split_and!; vm_compute; reflexivity.
  - eexists. split_and!; vm_compute; reflexivity.
Qed.

(** * Further properties *)

(** ** Products stay under their own identifier *)

Section WellKeyed.
Import BillingService.

Lemma well_keyed_save (products : gmap string Product.t) (db : DatabaseManager.t) :
  well_keyed_map products → well_keyed (DatabaseManager.save_products products db).
Proof. unfold well_keyed. by rewrite load_save_products. Qed.

Lemma well_keyed_map_insert (products : gmap string Product.t) (p : Product.t) :
  well_keyed_map products → well_keyed_map (<[Product.id p := p]> products).
Proof. intros H. by apply map_Forall_insert_2. Qed.

Lemma well_keyed_update_product (p : Product.t) (db : DatabaseManager.t) :
  well_keyed db → well_keyed (DatabaseManager.update_product p db).
Proof. intros H. by apply well_keyed_save, well_keyed_map_insert. Qed.

Lemma well_keyed_delete_product (k : string) (db : DatabaseManager.t) :
  well_keyed db → well_keyed (DatabaseManager.delete_product k db).
Proof.
  intros H. unfold DatabaseManager.delete_product.
  destruct (DatabaseManager.load_products db !! k); [|done].
  by apply well_keyed_save, map_Forall_delete.
Qed.

Lemma well_keyed_db_update_quantity (k : string) (q : Z) (db : DatabaseManager.t) :
  well_keyed db → well_keyed (DatabaseManager.update_product_quantity k q db).2.
Proof.
  intros H. unfold DatabaseManager.update_product_quantity.
  destruct (DatabaseManager.load_products db !! k) as [p|] eqn:Hk; [|done].
  apply well_keyed_save, map_Forall_insert_2; [|done].
  simpl. by apply (map_Forall_lookup_1 _ _ _ _ H).
Qed.

Lemma well_keyed_fold_insert (ps : list Product.t) (products : gmap string Product.t) :
  well_keyed_map products →
  well_keyed_map
    (fold_left (fun products product => <[Product.id product := product]> products)
       ps products).
Proof.
  revert products. induction ps as [|p ps IH]; intros products H; [done|].
  simpl. by apply IH, well_keyed_map_insert.
Qed.

Lemma well_keyed_initialize (db : DatabaseManager.t) :
  well_keyed db → well_keyed (DatabaseManager.initialize_default_products db).
Proof.
  intros H. unfold DatabaseManager.initialize_default_products.
  case_bool_decide; [|done].
  by apply well_keyed_save, well_keyed_fold_insert.
Qed.

(** On a well-keyed catalog each iteration writes to the file exactly what
    it wrote to the in-memory dictionary. *)
Lemma create_bill_body_sync (st st' : locals) (product_id : string) (quantity : Z) :
  create_bill_body st product_id quantity = inr st' →
  locals_in_sync st → locals_in_sync st'.
Proof.
  intros (product & item_total & Hp & _ & _ & ->)%create_bill_body_inr [Hfile Hkeys].
  pose proof (map_Forall_lookup_1 _ _ _ _ Hkeys Hp) as Hid. simpl in Hid.
  split; simpl.
  - rewrite load_update_product, Hfile. simpl. by rewrite Hid.
  - apply map_Forall_insert_2; [done | done].
Qed.

Lemma create_bill_loop_sync (items : list (string * Z)) (st st' : locals)
    (e : option loop_exit) :
  create_bill_loop items st = (st', e) →
  locals_in_sync st → locals_in_sync st'.
Proof.
  revert st. induction items as [|[product_id quantity] rest IH]; intros st H Hst.
  - by inversion H; subst.
  - simpl in H.
    destruct (create_bill_body st product_id quantity) as [x|st1] eqn:Hbody.
    + by inversion H; subst.
    + eapply IH; [exact H|]. by eapply create_bill_body_sync.
Qed.

Lemma create_bill_init_sync (self : DatabaseManager.t) :
  well_keyed self → locals_in_sync (create_bill_init self).
Proof. by split. Qed.

(** The database [create_bill] leaves is the loop's, with or without the
    new bill. *)
Lemma create_bill_products (customer_info : gmap string string)
    (items : list (string * Z)) (uuid4 : string) (now : datetime)
    (self : DatabaseManager.t) :
  DatabaseManager.load_products
    (create_bill customer_info items uuid4 now self).1.2
  = DatabaseManager.load_products
      (db (create_bill_loop items (create_bill_init self)).1).
Proof.
  unfold create_bill.
  by destruct (create_bill_loop items (create_bill_init self)) as [st [[]|]].
Qed.

Lemma well_keyed_create_bill (customer_info : gmap string string)
    (items : list (string * Z)) (uuid4 : string) (now : datetime)
    (self : DatabaseManager.t) :
  well_keyed self →
  well_keyed (create_bill customer_info items uuid4 now self).1.2.
Proof.
  intros H. unfold well_keyed. rewrite create_bill_products.
  destruct (create_bill_loop items (create_bill_init self)) as [st e] eqn:Hloop.
  destruct (create_bill_loop_sync _ _ _ _ Hloop (create_bill_init_sync _ H))
    as [Hfile Hkeys].
  simpl. by rewrite Hfile.
Qed.

Lemma well_keyed_inventory_update (k : string) (q : Z) (db : DatabaseManager.t) :
  well_keyed db →
  well_keyed (InventoryService.update_product_quantity k q db).2.
Proof.
  intros H. unfold InventoryService.update_product_quantity.
  destruct (q <? 0); [done|].
  destruct (DatabaseManager.get_product_by_id k db); [|done].
  by apply well_keyed_update_product.
Qed.

Lemma well_keyed_bulk_fold (updates : list (string * Z))
    (results : list (string * bool)) (db : DatabaseManager.t) :
  well_keyed db →
  well_keyed (fold_left InventoryService.bulk_update_body updates (results, db)).2.
Proof.
  revert results db.
  induction updates as [|[k q] rest IH]; intros results db H; [done|].
  simpl. pose proof (well_keyed_inventory_update k q db H) as Hstep.
  destruct (InventoryService.update_product_quantity k q db) as [success db1].
  by apply IH.
Qed.

Lemma well_keyed_run_operation (db : DatabaseManager.t) (op : operation) :
  well_keyed db → well_keyed (run_operation db op).
Proof.
  intros H. destruct op; simpl.
  - by apply well_keyed_create_bill.
  - by apply well_keyed_inventory_update.
  - unfold InventoryService.add_stock.
    destruct (InventoryService.get_product_by_id product_id db); [|done].
    by apply well_keyed_inventory_update.
  - by apply well_keyed_bulk_fold.
Qed.

Lemma well_keyed_apply_edit (db : DatabaseManager.t) (e : catalog_edit) :
  well_keyed db → well_keyed (apply_edit db e).
Proof.
  intros H. destruct e; simpl.
  - by apply well_keyed_update_product.
  - by apply well_keyed_update_product.
  - by apply well_keyed_delete_product.
  - by apply well_keyed_db_update_quantity.
Qed.

Lemma well_keyed_run_action (db : DatabaseManager.t) (a : action) :
  well_keyed db → well_keyed (run_action db a).
Proof.
  intros H. destruct a; simpl.
  - by apply well_keyed_apply_edit.
  - by apply well_keyed_run_operation.
  - by apply well_keyed_initialize.
Qed.

End WellKeyed.

(** X1: whatever is done to a store in which every product sits under its
    own identifier (catalog edits, billing, inventory updates, start-up
    initialisation, in any order), every product still sits under its own
    identifier afterwards. *)
Theorem catalog_stays_well_keyed (actions : list action) (db : DatabaseManager.t) :
  well_keyed db → well_keyed (run_actions actions db).
Proof.
  revert db. induction actions as [|a actions IH]; intros db H; [done|].
  unfold run_actions in *; simpl. by apply IH, well_keyed_run_action.
Qed.

Lemma catalog_stays_well_keyed_witness :
  well_keyed (run_actions opening_day empty_db).
Proof.
  apply (catalog_stays_well_keyed opening_day empty_db).
  unfold well_keyed, well_keyed_map. apply (bool_decide_unpack _). vm_compute. exact I.
Defined.

(** ** What a billing transaction does to the catalog *)

Section Decrement.
Import BillingService.

(** The loop never touches a product that is not named in the request. *)
Lemma create_bill_loop_frame (items : list (string * Z)) (st st' : locals)
    (e : option loop_exit) (k : string) :
  create_bill_loop items st = (st', e) →
  k ∉ items.*1 →
  products st' !! k = products st !! k.
Proof.
  revert st. induction items as [|[product_id quantity] rest IH]; intros st H Hk.
  - by inversion H.
  - simpl in H, Hk. apply not_elem_of_cons in Hk as [Hne Hk].
    destruct (create_bill_body st product_id quantity) as [x|st1] eqn:Hbody.
    + by inversion H.
    + rewrite (IH _ H Hk).
      apply create_bill_body_inr in Hbody as (product & item_total & _ & _ & _ & ->).
      simpl. by apply lookup_insert_ne.
Qed.

Lemma create_bill_loop_decrement (items : list (string * Z)) (st st' : locals)
    (k : string) (q : Z) :
  NoDup items.*1 →
  create_bill_loop items st = (st', None) →
  (k, q) ∈ items →
  ∃ p, products st !! k = Some p
       ∧ products st' !! k = Some (Product.set_quantity (Product.quantity p - q) p).
Proof.
  revert st. induction items as [|[product_id quantity] rest IH];
    intros st Hnodup H Hin.
  - by apply elem_of_nil in Hin.
  - simpl in Hnodup. apply NoDup_cons in Hnodup as [Hfresh Hnodup].
    simpl in H.
    destruct (create_bill_body st product_id quantity) as [x|st1] eqn:Hbody;
      [discriminate|].
    apply create_bill_body_inr in Hbody as (product & item_total & Hp & _ & _ & Hst1).
    apply elem_of_cons in Hin as [Heq|Hin].
    + injection Heq as -> ->. exists product. split; [done|].
      rewrite (create_bill_loop_frame _ _ _ _ _ H Hfresh), Hst1. simpl.
      apply lookup_insert_eq.
    + destruct (IH _ Hnodup H Hin) as (p & Hp1 & Hfinal).
      exists p. split; [|done].
      rewrite Hst1 in Hp1. simpl in Hp1.
      rewrite lookup_insert_ne in Hp1; [done|].
      intros ->. apply Hfresh. apply list_elem_of_fmap. by exists (k, q).
Qed.

Lemma create_bill_loop_app (done rest : list (string * Z)) (st : locals) :
  create_bill_loop (done ++ rest) st
  = match create_bill_loop done st with
    | (st1, None) => create_bill_loop rest st1
    | (st1, Some e) => (st1, Some e)
    end.
Proof.
  revert st. induction done as [|[product_id quantity] done IH]; intros st; [done|].
  simpl. by destruct (create_bill_body st product_id quantity).
Qed.

(** A line that fails a precondition against the in-memory catalog leaves
    the loop with the matching exit. *)
Lemma create_bill_body_rejected (st : locals) (line : string * Z) (r : rejection) :
  check_line (products st) line = Some r →
  create_bill_body st line.1 line.2 = inl (rejection_exit r).
Proof.
  unfold check_line, create_bill_body. intros H.
  destruct (products st !! line.1) as [p|]; [|by inversion H].
  destruct (Product.quantity p <? line.2); by inversion H.
Qed.

Lemma sans_quantity_set_quantity (q : Z) (p : Product.t) :
  sans_quantity (Product.set_quantity q p) = sans_quantity p.
Proof. reflexivity. Qed.

Lemma create_bill_loop_sans_quantity (items : list (string * Z)) (st st' : locals)
    (e : option loop_exit) :
  create_bill_loop items st = (st', e) →
  sans_quantity <$> products st' = sans_quantity <$> products st.
Proof.
  revert st. induction items as [|[product_id quantity] rest IH]; intros st H.
  - by inversion H.
  - simpl in H.
    destruct (create_bill_body st product_id quantity) as [x|st1] eqn:Hbody.
    + by inversion H.
    + rewrite (IH _ H).
      apply create_bill_body_inr in Hbody as (product & item_total & Hp & _ & _ & ->).
      simpl. rewrite fmap_insert, sans_quantity_set_quantity.
      apply insert_id. by rewrite lookup_fmap, Hp.
Qed.

End Decrement.

(** X2: on a catalog whose products sit under their own identifiers, a call
    of [create_bill] with distinct request keys that returns a bill has
    lowered the persisted quantity of every requested product by exactly
    the requested amount, changed nothing else of that product, and left
    every product that was not requested as it was. *)
Theorem create_bill_decrements_stock (customer_info : gmap string string)
    (items : list (string * Z)) (uuid4 : string) (now : datetime)
    (self db' : DatabaseManager.t) (b : Bill.t)
    (lg : list BillingService.log_record) :
  well_keyed self →
  NoDup items.*1 →
  BillingService.create_bill customer_info items uuid4 now self
    = (BillingService.Returned (Some b), db', lg) →
  (∀ k q, (k, q) ∈ items →
     ∃ p, DatabaseManager.load_products self !! k = Some p
          ∧ DatabaseManager.load_products db' !! k
            = Some (Product.set_quantity (Product.quantity p - q) p))
  ∧ (∀ k, k ∉ items.*1 →
       DatabaseManager.load_products db' !! k
       = DatabaseManager.load_products self !! k).
Proof.
  intros Hkeys Hnodup H.
  apply create_bill_returns_bill in H as (st & Hloop & _ & _ & _ & _ & _ & _ & -> & _).
  destruct (create_bill_loop_sync _ _ _ _ Hloop (create_bill_init_sync _ Hkeys))
    as [Hfile _].
  rewrite load_products_add_bill, Hfile. split.
  - intros k q Hin. by apply (create_bill_loop_decrement items _ _ k q Hnodup Hloop).
  - intros k Hk. by apply (create_bill_loop_frame items _ _ None k Hloop).
Qed.

Lemma create_bill_decrements_stock_witness :
  ∃ p, DatabaseManager.load_products scenario_db !! "rice_l" = Some p
       ∧ DatabaseManager.load_products scenario_call.1.2 !! "rice_l"
         = Some (Product.set_quantity (Product.quantity p - 10) p).
Proof.
  refine (proj1 (create_bill_decrements_stock customer_a [("rice_l", 10)]
                   scenario_uuid some_time scenario_db scenario_call.1.2
                   scenario_bill scenario_call.2 _ _ _) "rice_l" 10 _).
  - unfold well_keyed, well_keyed_map. apply (bool_decide_unpack _). vm_compute. exact I.
  - apply (bool_decide_unpack _). vm_compute. exact I.
  - vm_compute. reflexivity.
  - apply list_elem_of_here.
Defined.

(** X3: when the lines before a rejected one would have been billed on
    their own, the rejected call returns no bill and stores none, reports
    that line's failure, and leaves the catalog exactly as billing those
    earlier lines leaves it: their decrements are persisted, later lines
    are never looked at.  (Request keys distinct.) *)
Theorem create_bill_rejection_keeps_prefix (customer_info : gmap string string)
    (done rest : list (string * Z)) (line : string * Z) (r : rejection)
    (uuid4 : string) (now : datetime) (self db1 : DatabaseManager.t)
    (b : Bill.t) (lg1 : list BillingService.log_record) :
  NoDup (done ++ line :: rest).*1 →
  BillingService.create_bill customer_info done uuid4 now self
    = (BillingService.Returned (Some b), db1, lg1) →
  check_line (DatabaseManager.load_products self) line = Some r →
  ∃ db',
    BillingService.create_bill customer_info (done ++ line :: rest) uuid4 now self
      = (BillingService.Returned None, db', [rejection_log r])
    ∧ DatabaseManager.products_file db' = DatabaseManager.products_file db1
    ∧ DatabaseManager.load_bills db' = DatabaseManager.load_bills self.
Proof.
  intros Hnodup Hdone Hline.
  apply create_bill_returns_bill in Hdone
    as (st & Hloop & _ & _ & _ & _ & _ & _ & -> & _).
  assert (Hfresh : line.1 ∉ done.*1).
  { rewrite fmap_app in Hnodup. apply NoDup_app in Hnodup as (_ & Hdisj & _).
    intros Hin. apply (Hdisj _ Hin). simpl. apply list_elem_of_here. }
  assert (Hmem : check_line (BillingService.products st) line = Some r).
  { unfold check_line in *.
    by rewrite (create_bill_loop_frame _ _ _ _ _ Hloop Hfresh). }
  exists (BillingService.db st).
  unfold BillingService.create_bill.
  rewrite create_bill_loop_app, Hloop. destruct line as [k q]. simpl.
  pose proof (create_bill_body_rejected st (k, q) r Hmem) as Hexit.
  simpl in Hexit. rewrite Hexit.
  split_and!.
  - by destruct r.
  - reflexivity.
  - by rewrite (create_bill_loop_bills _ _ _ _ Hloop).
Qed.

Lemma create_bill_rejection_keeps_prefix_witness :
  ∃ db',
    BillingService.create_bill customer_a ([("rice_l", 10)] ++ ("nope", 1) :: [])
      scenario_uuid some_time scenario_db
      = (BillingService.Returned None, db',
         [rejection_log (RejectNotFound "nope")])
    ∧ DatabaseManager.products_file db'
      = DatabaseManager.products_file scenario_call.1.2
    ∧ DatabaseManager.load_bills db' = DatabaseManager.load_bills scenario_db.
Proof.
  apply (create_bill_rejection_keeps_prefix customer_a [("rice_l", 10)] []
           ("nope", 1) (RejectNotFound "nope") scenario_uuid some_time scenario_db
           scenario_call.1.2 scenario_bill scenario_call.2).
  - apply (bool_decide_unpack _). vm_compute. exact I.
  - vm_compute. reflexivity.
  - vm_compute. reflexivity.
Defined.

(** X4: however a call of [create_bill] ends (bill, no bill, exception),
    on a well-keyed catalog it adds no product, removes none, and changes
    no product's identifier, name, category, price, minimum stock level or
    tax rate: only quantities can differ afterwards. *)
Theorem create_bill_only_changes_quantities (customer_info : gmap string string)
    (items : list (string * Z)) (uuid4 : string) (now : datetime)
    (self : DatabaseManager.t) :
  well_keyed self →
  sans_quantity <$>
    DatabaseManager.load_products
      (BillingService.create_bill customer_info items uuid4 now self).1.2
  = sans_quantity <$> DatabaseManager.load_products self.
Proof.
  intros Hkeys. rewrite create_bill_products.
  destruct (BillingService.create_bill_loop items (BillingService.create_bill_init self))
    as [st e] eqn:Hloop.
  destruct (create_bill_loop_sync _ _ _ _ Hloop (create_bill_init_sync _ Hkeys))
    as [Hfile _].
  simpl. rewrite Hfile.
  by rewrite (create_bill_loop_sans_quantity _ _ _ _ Hloop).
Qed.

Lemma create_bill_only_changes_quantities_witness :
  sans_quantity <$> DatabaseManager.load_products partial_call.1.2
  = sans_quantity <$> DatabaseManager.load_products shop_db.
Proof.
  apply (create_bill_only_changes_quantities customer_a
           [("gro001", 10); ("gro002", 150)] scenario_uuid some_time shop_db).
  unfold well_keyed, well_keyed_map. apply (bool_decide_unpack _). vm_compute. exact I.
Defined.

(** ** Checking a line before billing it *)

(** X5: [validate_quantity] accepts a line exactly when the quantity is
    positive, the product exists and the quantity is within stock; and for
    a positive quantity (that converts to float) it accepts exactly the
    lines that [create_bill] bills when they are requested on their own. *)
Theorem validate_quantity_agrees_with_create_bill (product_id : string) (quantity : Z)
    (customer_info : gmap string string) (uuid4 : string) (now : datetime)
    (self : DatabaseManager.t) :
  ((BillingService.validate_quantity product_id quantity self).1 = true
   ↔ 0 < quantity
     ∧ ∃ p, DatabaseManager.load_products self !! product_id = Some p
            ∧ quantity ≤ Product.quantity p)
  ∧ (0 < quantity →
     convertible (product_id, quantity) →
     ((BillingService.validate_quantity product_id quantity self).1 = true
      ↔ ∃ b, (BillingService.create_bill customer_info [(product_id, quantity)]
                uuid4 now self).1.1
             = BillingService.Returned (Some b))).
Proof.
  assert (Hiff : (BillingService.validate_quantity product_id quantity self).1 = true
                 ↔ 0 < quantity
                   ∧ ∃ p, DatabaseManager.load_products self !! product_id = Some p
                          ∧ quantity ≤ Product.quantity p).
  { unfold BillingService.validate_quantity.
    destruct (Z.leb_spec quantity 0); simpl; [split; [done | lia]|].
    destruct (DatabaseManager.load_products self !! product_id) as [p|]; simpl.
    - destruct (Z.ltb_spec (Product.quantity p) quantity); simpl.
      + split; [done|]. intros (_ & p' & [= <-] & ?). lia.
      + split; [|done]. intros _. split; [done|]. by exists p.
    - split; [done|]. by intros (_ & p' & ? & _). }
  split; [exact Hiff|].
  intros Hpos Hconv. rewrite Hiff.
  destruct (create_bill_loop_first_rejection (DatabaseManager.load_products self)
              [(product_id, quantity)] (BillingService.create_bill_init self))
    as [st Hloop].
  { simpl. apply NoDup_singleton. }
  { by constructor. }
  { done. }
  unfold BillingService.create_bill. rewrite Hloop. simpl.
  unfold check_line; simpl.
  destruct (DatabaseManager.load_products self !! product_id) as [p|]; simpl.
  - destruct (Z.ltb_spec (Product.quantity p) quantity); simpl.
    + split; [intros (_ & p' & [= <-] & ?); lia | by intros [b ?]].
    + split; [by eexists|]. intros _. split; [done|]. by exists p.
  - split; [by intros (_ & p' & ? & _) | by intros [b ?]].
Qed.

Lemma validate_quantity_agrees_with_create_bill_witness :
  (BillingService.validate_quantity "rice_l" 10 scenario_db).1 = true
  ↔ ∃ b, (BillingService.create_bill customer_a [("rice_l", 10)] scenario_uuid
            some_time scenario_db).1.1
         = BillingService.Returned (Some b).
Proof.
  apply (proj2 (validate_quantity_agrees_with_create_bill "rice_l" 10 customer_a
                  scenario_uuid some_time scenario_db)).
  - lia.
  - apply (bool_decide_unpack _). vm_compute. exact I.
Defined.

(** ** Deleting products, finding bills and customers *)

Section Lookups.

Lemma find_snoc {A} (f : A → bool) (l : list A) (x : A) :
  List.find f (l ++ [x])
  = match List.find f l with
    | Some y => Some y
    | None => if f x then Some x else None
    end.
Proof.
  induction l as [|y l IH]; simpl; [done|].
  by destruct (f y).
Qed.

Lemma find_head_filter {A} (P : A → Prop) `{!∀ x, Decision (P x)} (l : list A) :
  List.find (fun x => bool_decide (P x)) l = head (filter P l).
Proof.
  induction l as [|y l IH]; simpl; [done|].
  rewrite filter_cons. case_bool_decide; by destruct (decide (P y)).
Qed.

Lemma find_none_iff {A} (f : A → bool) (l : list A) :
  List.find f l = None ↔ ∀ x, x ∈ l → f x = false.
Proof.
  induction l as [|y l IH]; simpl.
  - split; [|done]. by intros _ x ?%elem_of_nil.
  - destruct (f y) eqn:Hy.
    + split; [done|]. intros H. specialize (H y (list_elem_of_here _ _)). congruence.
    + rewrite IH. split.
      * intros H x [->|Hx]%elem_of_cons; [done | by apply H].
      * intros H x Hx. apply H. by apply list_elem_of_further.
Qed.

End Lookups.

(** X6: [delete_product] removes the product stored under the identifier
    and nothing else, whether a record or a bill; for an identifier that is
    not in the catalog it does nothing at all. *)
Theorem delete_product_removes_only_its_id (k : string) (db : DatabaseManager.t) :
  DatabaseManager.get_product_by_id k (DatabaseManager.delete_product k db) = None
  ∧ (∀ k', k' ≠ k →
       DatabaseManager.products_file (DatabaseManager.delete_product k db) !! k'
       = DatabaseManager.products_file db !! k')
  ∧ DatabaseManager.load_bills (DatabaseManager.delete_product k db)
    = DatabaseManager.load_bills db
  ∧ (DatabaseManager.get_product_by_id k db = None →
     DatabaseManager.delete_product k db = db).
Proof.
  unfold DatabaseManager.get_product_by_id, DatabaseManager.delete_product.
  destruct (DatabaseManager.load_products db !! k) as [p|] eqn:Hk.
  - split_and!; [| |done|done].
    + rewrite load_save_products. apply lookup_delete_eq.
    + intros k' Hne. unfold DatabaseManager.save_products, DatabaseManager.load_products.
      simpl. rewrite lookup_fmap, lookup_delete_ne by done. rewrite lookup_fmap.
      destruct (DatabaseManager.products_file db !! k') as [d|]; simpl; [|done].
      by rewrite to_dict_from_dict.
  - by split_and!.
Qed.

Lemma delete_product_removes_only_its_id_witness :
  DatabaseManager.delete_product "nope" shop_db = shop_db.
Proof.
  apply (delete_product_removes_only_its_id "nope" shop_db).
  vm_compute. reflexivity.
Defined.

(** X7: a bill that [create_bill] returns carries the first eight
    characters of the UUID in upper case as its identifier.  Looking that
    identifier up afterwards finds the new bill only if no older bill has
    the same identifier: with a collision the older bill is returned.
    Lookups of other identifiers are unchanged. *)
Theorem get_bill_by_id_after_create_bill (customer_info : gmap string string)
    (items : list (string * Z)) (uuid4 : string) (now : datetime)
    (self db' : DatabaseManager.t) (b : Bill.t)
    (lg : list BillingService.log_record) :
  BillingService.create_bill customer_info items uuid4 now self
    = (BillingService.Returned (Some b), db', lg) →
  Bill.id b = Py.upper (Py.prefix 8 uuid4)
  ∧ BillingService.get_bill_by_id (Bill.id b) db'
    = match BillingService.get_bill_by_id (Bill.id b) self with
      | Some older => Some older
      | None => Some b
      end
  ∧ ∀ bill_id, bill_id ≠ Bill.id b →
      BillingService.get_bill_by_id bill_id db'
      = BillingService.get_bill_by_id bill_id self.
Proof.
  intros H.
  assert (Hid : Bill.id b = Py.upper (Py.prefix 8 uuid4)).
  { unfold BillingService.create_bill in H.
    destruct (BillingService.create_bill_loop items
                (BillingService.create_bill_init self)) as [st [[]|]];
      by inversion H. }
  apply create_bill_returns_bill in H as (st & Hloop & _ & _ & _ & _ & _ & _ & -> & _).
  pose proof (create_bill_loop_bills _ _ _ _ Hloop) as Hbills. simpl in Hbills.
  unfold BillingService.get_bill_by_id, DatabaseManager.get_bill_by_id.
  rewrite load_bills_add_bill, Hbills.
  split_and!; [exact Hid | |].
  - rewrite find_snoc. by rewrite bool_decide_eq_true_2.
  - intros bill_id Hne. rewrite find_snoc.
    rewrite bool_decide_eq_false_2 by congruence.
    by destruct (find _ _).
Qed.

Lemma get_bill_by_id_after_create_bill_witness :
  BillingService.get_bill_by_id (Bill.id scenario_bill) scenario_call.1.2
  = match BillingService.get_bill_by_id (Bill.id scenario_bill) scenario_db with
    | Some older => Some older
    | None => Some scenario_bill
    end.
Proof.
  apply (get_bill_by_id_after_create_bill customer_a [("rice_l", 10)] scenario_uuid
           some_time scenario_db scenario_call.1.2 scenario_bill scenario_call.2).
  vm_compute. reflexivity.
Defined.

(** X8: [get_customer_by_phone] returns the customer of the earliest bill
    with that phone number, that is of the first of [get_customer_bills];
    once a phone number has a bill, later bills under the same number
    (even with another name) never change what the lookup returns. *)
Theorem get_customer_by_phone_is_first_recorded (phone : string) (b : Bill.t)
    (db : DatabaseManager.t) :
  DatabaseManager.get_customer_by_phone phone db
    = Bill.customer <$> head (BillingService.get_customer_bills phone db)
  ∧ DatabaseManager.get_customer_by_phone phone (DatabaseManager.add_bill b db)
    = match DatabaseManager.get_customer_by_phone phone db with
      | Some c => Some c
      | None =>
          if decide (Customer.phone (Bill.customer b) = phone)
          then Some (Bill.customer b) else None
      end
  ∧ (DatabaseManager.get_customer_by_phone phone db = None
     ↔ ∀ bill, bill ∈ DatabaseManager.load_bills db →
               Customer.phone (Bill.customer bill) ≠ phone).
Proof.
  unfold DatabaseManager.get_customer_by_phone, BillingService.get_customer_bills.
  split_and!.
  - by rewrite (find_head_filter
                  (fun bill => Customer.phone (Bill.customer bill) = phone)).
  - rewrite load_bills_add_bill, find_snoc.
    destruct (find _ (DatabaseManager.load_bills db)); simpl; [done|].
    by destruct (decide (Customer.phone (Bill.customer b) = phone));
      [rewrite bool_decide_eq_true_2 | rewrite bool_decide_eq_false_2].
  - rewrite fmap_None, find_none_iff. split.
    + intros H bill Hin. specialize (H bill Hin). by apply bool_decide_eq_false_1 in H.
    + intros H bill Hin. by apply bool_decide_eq_false_2, H.
Qed.

(** ** Start-up initialisation *)

Section Defaults.

Lemma default_catalog_nonempty :
  fold_left (fun products product => <[Product.id product := product]> products)
    DatabaseManager.default_products (∅ : gmap string Product.t) ≠ ∅.
Proof.
  intros H.
  assert (Hl : fold_left
                 (fun products product => <[Product.id product := product]> products)
                 DatabaseManager.default_products (∅ : gmap string Product.t)
                 !! "med001" = None) by (by rewrite H, lookup_empty).
  vm_compute in Hl. discriminate Hl.
Qed.

Lemma initialize_empty (db : DatabaseManager.t) :
  DatabaseManager.load_products db = ∅ →
  DatabaseManager.load_products (DatabaseManager.initialize_default_products db)
  = fold_left (fun products product => <[Product.id product := product]> products)
      DatabaseManager.default_products ∅.
Proof.
  intros H. unfold DatabaseManager.initialize_default_products.
  rewrite bool_decide_eq_true_2 by done.
  by rewrite load_save_products, H.
Qed.

End Defaults.

(** X9: [initialize_default_products] never touches a catalog that holds a
    product, never touches the bills, and running it twice is the same as
    running it once; on an empty catalog it makes each of the twenty
    default products retrievable under its identifier. *)
Theorem initialize_default_products_once (db : DatabaseManager.t) :
  DatabaseManager.initialize_default_products
    (DatabaseManager.initialize_default_products db)
  = DatabaseManager.initialize_default_products db
  ∧ DatabaseManager.load_bills (DatabaseManager.initialize_default_products db)
    = DatabaseManager.load_bills db
  ∧ (DatabaseManager.load_products db ≠ ∅ →
     DatabaseManager.initialize_default_products db = db)
  ∧ (DatabaseManager.load_products db = ∅ →
     Forall
       (fun p =>
          DatabaseManager.get_product_by_id (Product.id p)
            (DatabaseManager.initialize_default_products db) = Some p)
       DatabaseManager.default_products).
Proof.
  split_and!.
  - destruct (decide (DatabaseManager.load_products db = ∅)) as [Hempty|Hfull].
    + pose proof (initialize_empty db Hempty) as Hload.
      unfold DatabaseManager.initialize_default_products at 1.
      rewrite bool_decide_eq_false_2; [done|].
      rewrite Hload. apply default_catalog_nonempty.
    + assert (Hsame : DatabaseManager.initialize_default_products db = db).
      { unfold DatabaseManager.initialize_default_products.
        by rewrite bool_decide_eq_false_2. }
      by rewrite !Hsame.
  - unfold DatabaseManager.initialize_default_products. by case_bool_decide.
  - intros Hfull. unfold DatabaseManager.initialize_default_products.
    by rewrite bool_decide_eq_false_2.
  - intros Hempty. unfold DatabaseManager.get_product_by_id.
    rewrite (initialize_empty db Hempty).
    unfold DatabaseManager.default_products.
    repeat (constructor; [vm_compute; reflexivity|]).
    constructor.
Qed.

Lemma initialize_default_products_once_witness :
  DatabaseManager.initialize_default_products scenario_db = scenario_db.
Proof.
  apply (initialize_default_products_once scenario_db).
  intros H.
  assert (Hl : DatabaseManager.load_products scenario_db !! "rice_l" = None)
    by (by rewrite H, lookup_empty).
  vm_compute in Hl. discriminate Hl.
Defined.

(** ** Inventory updates *)

Section Inventory.

(** What a successful quantity update does to a well-keyed catalog. *)
Lemma inventory_update_effect (k : string) (q : Z) (db : DatabaseManager.t) :
  well_keyed db →
  InventoryService.update_product_quantity k q db
  = if decide (0 ≤ q) then
      match DatabaseManager.load_products db !! k with
      | Some p =>
          (true,
           DatabaseManager.save_products
             (<[k := Product.set_quantity q p]> (DatabaseManager.load_products db)) db)
      | None => (false, db)
      end
    else (false, db).
Proof.
  intros Hkeys. unfold InventoryService.update_product_quantity,
    DatabaseManager.get_product_by_id, DatabaseManager.update_product.
  destruct (Z.ltb_spec q 0); destruct (decide (0 ≤ q)); try lia; [done|].
  destruct (DatabaseManager.load_products db !! k) as [p|] eqn:Hk; [|done].
  pose proof (map_Forall_lookup_1 _ _ _ _ Hkeys Hk) as Hid. simpl in Hid.
  simpl. by rewrite Hid.
Qed.

Lemma inventory_update_keys (k k' : string) (q : Z) (db : DatabaseManager.t) :
  well_keyed db →
  is_Some (DatabaseManager.load_products
             (InventoryService.update_product_quantity k q db).2 !! k')
  ↔ is_Some (DatabaseManager.load_products db !! k').
Proof.
  intros Hkeys. rewrite inventory_update_effect by done.
  destruct (decide (0 ≤ q)); [|done].
  destruct (DatabaseManager.load_products db !! k) as [p|] eqn:Hk; [|done].
  simpl. rewrite load_save_products.
  destruct (decide (k = k')) as [->|Hne].
  - rewrite lookup_insert_eq, Hk. split; by eexists.
  - by rewrite lookup_insert_ne.
Qed.

Lemma inventory_update_flag (k : string) (q : Z) (db : DatabaseManager.t) :
  well_keyed db →
  (k, (InventoryService.update_product_quantity k q db).1) = accepted db (k, q).
Proof.
  intros Hkeys. rewrite inventory_update_effect by done. unfold accepted; simpl.
  destruct (decide (0 ≤ q)).
  - destruct (DatabaseManager.load_products db !! k) as [p|]; simpl.
    + by rewrite bool_decide_eq_true_2.
    + rewrite bool_decide_eq_false_2; [done|]. by intros [_ [? ?]].
  - rewrite bool_decide_eq_false_2; [done|]. by intros [? _].
Qed.

Lemma accepted_ext (db db1 : DatabaseManager.t) (updates : list (string * Z)) :
  (∀ k, is_Some (DatabaseManager.load_products db1 !! k)
        ↔ is_Some (DatabaseManager.load_products db !! k)) →
  List.map (accepted db1) updates = List.map (accepted db) updates.
Proof.
  intros H. apply map_ext. intros [k q]. unfold accepted; simpl.
  f_equal. apply bool_decide_ext. by rewrite H.
Qed.

Lemma bulk_update_fold_results (updates : list (string * Z))
    (results : list (string * bool)) (db : DatabaseManager.t) :
  well_keyed db →
  (fold_left InventoryService.bulk_update_body updates (results, db)).1
  = results ++ List.map (accepted db) updates.
Proof.
  revert results db.
  induction updates as [|[k q] rest IH]; intros results db Hkeys; simpl.
  - by rewrite app_nil_r.
  - pose proof (inventory_update_flag k q db Hkeys) as Hflag.
    pose proof (well_keyed_inventory_update k q db Hkeys) as Hkeys1.
    pose proof (fun k' => inventory_update_keys k k' q db Hkeys) as Hdom.
    destruct (InventoryService.update_product_quantity k q db) as [success db1].
    simpl in *. rewrite IH by done.
    rewrite (accepted_ext db db1 rest Hdom), <- app_assoc. simpl. by rewrite Hflag.
Qed.

Lemma bulk_update_fold_frame (updates : list (string * Z))
    (results : list (string * bool)) (db : DatabaseManager.t) (k : string) :
  well_keyed db →
  k ∉ updates.*1 →
  DatabaseManager.load_products
    (fold_left InventoryService.bulk_update_body updates (results, db)).2 !! k
  = DatabaseManager.load_products db !! k.
Proof.
  revert results db.
  induction updates as [|[k1 q] rest IH]; intros results db Hkeys Hk; [done|].
  simpl in Hk. apply not_elem_of_cons in Hk as [Hne Hk]. simpl.
  pose proof (well_keyed_inventory_update k1 q db Hkeys) as Hkeys1.
  pose proof (inventory_update_effect k1 q db Hkeys) as Heff.
  destruct (InventoryService.update_product_quantity k1 q db) as [success db1].
  simpl in *. rewrite IH by done.
  destruct (decide (0 ≤ q)); [|by inversion Heff].
  destruct (DatabaseManager.load_products db !! k1) as [p|]; inversion Heff; [|done].
  rewrite load_save_products. by apply lookup_insert_ne.
Qed.

End Inventory.

(** X10: on a well-keyed catalog [InventoryService.update_product_quantity]
    succeeds exactly when the new quantity is not negative and the product
    exists; a refused update changes nothing, and a successful one sets
    that product's quantity and nothing else. *)
Theorem inventory_update_product_quantity_spec (k : string) (q : Z)
    (db : DatabaseManager.t) :
  well_keyed db →
  ((InventoryService.update_product_quantity k q db).1 = true
   ↔ 0 ≤ q ∧ is_Some (DatabaseManager.load_products db !! k))
  ∧ ((InventoryService.update_product_quantity k q db).1 = false →
     (InventoryService.update_product_quantity k q db).2 = db)
  ∧ ∀ p, DatabaseManager.load_products db !! k = Some p →
         0 ≤ q →
         DatabaseManager.load_products
           (InventoryService.update_product_quantity k q db).2
         = <[k := Product.set_quantity q p]> (DatabaseManager.load_products db)
         ∧ DatabaseManager.load_bills
             (InventoryService.update_product_quantity k q db).2
           = DatabaseManager.load_bills db.
Proof.
  intros Hkeys. rewrite inventory_update_effect by done.
  destruct (decide (0 ≤ q)) as [Hq|Hq].
  - destruct (DatabaseManager.load_products db !! k) as [p|] eqn:Hk; simpl.
    + split_and!; [split; [by eauto | done] | done |].
      intros p' [= <-] _. by rewrite load_save_products.
    + split_and!; [split; [done | by intros [_ [? ?]]] | done | done].
  - simpl. split_and!; [split; [done | by intros [? _]] | done |].
    intros p _ ?. lia.
Qed.

Lemma inventory_update_product_quantity_spec_witness :
  (InventoryService.update_product_quantity "gro001" (-1) shop_db).1 = true
  ↔ 0 ≤ -1 ∧ is_Some (DatabaseManager.load_products shop_db !! "gro001").
Proof.
  apply (inventory_update_product_quantity_spec "gro001" (-1) shop_db).
  unfold well_keyed, well_keyed_map. apply (bool_decide_unpack _). vm_compute. exact I.
Defined.

(** X11: for a quantity that is not negative, the inventory service's
    [update_product_quantity] and the database manager's do the same thing
    to a well-keyed store.  For a negative quantity the service refuses and
    changes nothing, while the database manager's method writes the
    negative quantity to any product that exists. *)
Theorem update_product_quantity_service_vs_database (k : string) (q : Z)
    (db : DatabaseManager.t) :
  well_keyed db →
  (0 ≤ q →
   InventoryService.update_product_quantity k q db
   = DatabaseManager.update_product_quantity k q db)
  ∧ (q < 0 →
     InventoryService.update_product_quantity k q db = (false, db)
     ∧ ∀ p, DatabaseManager.load_products db !! k = Some p →
            (DatabaseManager.update_product_quantity k q db).1 = true
            ∧ DatabaseManager.load_products
                (DatabaseManager.update_product_quantity k q db).2 !! k
              = Some (Product.set_quantity q p)).
Proof.
  intros Hkeys. rewrite inventory_update_effect by done.
  unfold DatabaseManager.update_product_quantity. split.
  - intros Hq. destruct (decide (0 ≤ q)); [|lia].
    by destruct (DatabaseManager.load_products db !! k).
  - intros Hq. destruct (decide (0 ≤ q)); [lia|]. split; [done|].
    intros p ->. simpl. split; [done|].
    rewrite load_save_products. apply lookup_insert_eq.
Qed.

Lemma update_product_quantity_service_vs_database_witness :
  InventoryService.update_product_quantity "gro001" 7 shop_db
  = DatabaseManager.update_product_quantity "gro001" 7 shop_db.
Proof.
  apply (update_product_quantity_service_vs_database "gro001" 7 shop_db).
  - unfold well_keyed, well_keyed_map. apply (bool_decide_unpack _). vm_compute. exact I.
  - lia.
Defined.

(** X12: on a well-keyed catalog [add_stock] succeeds exactly when the
    product exists and the sum of its quantity and the amount (which may be
    negative) is not negative; then the product's quantity becomes that sum
    and nothing else changes, and otherwise nothing changes at all. *)
Theorem add_stock_spec (k : string) (n : Z) (db : DatabaseManager.t) :
  well_keyed db →
  ((InventoryService.add_stock k n db).1 = true
   ↔ ∃ p, DatabaseManager.load_products db !! k = Some p
          ∧ 0 ≤ Product.quantity p + n)
  ∧ ((InventoryService.add_stock k n db).1 = false →
     (InventoryService.add_stock k n db).2 = db)
  ∧ ∀ p, DatabaseManager.load_products db !! k = Some p →
         0 ≤ Product.quantity p + n →
         DatabaseManager.load_products (InventoryService.add_stock k n db).2
         = <[k := Product.set_quantity (Product.quantity p + n) p]>
             (DatabaseManager.load_products db).
Proof.
  intros Hkeys. unfold InventoryService.add_stock, InventoryService.get_product_by_id,
    DatabaseManager.get_product_by_id.
  destruct (DatabaseManager.load_products db !! k) as [p|] eqn:Hk.
  - rewrite inventory_update_effect by done. rewrite Hk.
    destruct (decide (0 ≤ Product.quantity p + n)) as [Hq|Hq]; simpl.
    + split_and!; [split; [by eauto | done] | done |].
      intros p' [= <-] _. by rewrite load_save_products.
    + split_and!; [split; [done | by intros (p' & [= <-] & ?)] | done |].
      intros p' [= <-] ?. lia.
  - simpl. split_and!; [split; [done | by intros (p' & ? & _)] | done | done].
Qed.

Lemma add_stock_spec_witness :
  (InventoryService.add_stock "gro001" (-101) shop_db).2 = shop_db.
Proof.
  refine (proj1 (proj2 (add_stock_spec "gro001" (-101) shop_db _)) _).
  - unfold well_keyed, well_keyed_map. apply (bool_decide_unpack _). vm_compute. exact I.
  - vm_compute. reflexivity.
Defined.

(** X13: on a well-keyed catalog [bulk_update_inventory] reports, for every
    update in order, whether its quantity was not negative and its product
    in the catalog, and leaves every product that no update names as it
    was. *)
Theorem bulk_update_inventory_results (updates : list (string * Z))
    (db : DatabaseManager.t) :
  well_keyed db →
  (InventoryService.bulk_update_inventory updates db).1
  = List.map
      (fun update =>
         (update.1,
          bool_decide
            (0 ≤ update.2
             ∧ is_Some (DatabaseManager.load_products db !! update.1))))
      updates
  ∧ ∀ k, k ∉ updates.*1 →
         DatabaseManager.load_products
           (InventoryService.bulk_update_inventory updates db).2 !! k
         = DatabaseManager.load_products db !! k.
Proof.
  intros Hkeys. unfold InventoryService.bulk_update_inventory. split.
  - by rewrite bulk_update_fold_results.
  - intros k Hk. by apply bulk_update_fold_frame.
Qed.

Lemma bulk_update_inventory_results_witness :
  (InventoryService.bulk_update_inventory
     [("med001", 7); ("med002", -1); ("nope", 3)] shop_db).1
  = [("med001", true); ("med002", false); ("nope", false)].
Proof.
  refine (eq_trans
            (proj1 (bulk_update_inventory_results
                      [("med001", 7); ("med002", -1); ("nope", 3)] shop_db _)) _).
  - unfold well_keyed, well_keyed_map. apply (bool_decide_unpack _). vm_compute. exact I.
  - vm_compute. reflexivity.
Defined.

(** ** Alerts by urgency *)

Section Urgency.

Lemma check_stock_levels_fold (alerts : list InventoryAlert.t)
    (acc : InventoryService.categorized) :
  fold_left categorize alerts acc
  = {| InventoryService.critical :=
         InventoryService.critical acc ++ filter is_critical alerts;
       InventoryService.low := InventoryService.low acc ++ filter is_low alerts;
       InventoryService.normal :=
         InventoryService.normal acc ++ filter is_normal alerts |}.
Proof.
  revert acc. induction alerts as [|a alerts IH]; intros acc; simpl.
  - rewrite !filter_nil, !app_nil_r. by destruct acc.
  - rewrite IH. unfold categorize, is_critical, is_low, is_normal.
    rewrite !filter_cons.
    destruct (Z.ltb_spec (InventoryAlert.current_quantity a) 10);
      [|destruct (Z.ltb_spec (InventoryAlert.current_quantity a) 50)]; simpl;
      repeat (case_decide; try lia); by rewrite <- ?app_assoc.
Qed.

Lemma urgency_classes_partition (alerts : list InventoryAlert.t) :
  filter is_critical alerts ++ filter is_low alerts ++ filter is_normal alerts
  ≡ₚ alerts.
Proof.
  induction alerts as [|a alerts IH]; [done|].
  rewrite !filter_cons. unfold is_critical, is_low, is_normal in *.
  repeat (case_decide; try lia); simpl.
  - by rewrite IH.
  - rewrite <- Permutation_middle. by rewrite IH.
  - rewrite app_assoc, <- Permutation_middle, <- app_assoc. by rewrite IH.
Qed.

End Urgency.

(** X14: [check_stock_levels] (the definition in force) sorts the alerts of
    [get_low_stock_alerts] into critical (fewer than 10 on hand), low (10
    to 49) and normal (50 or more), each in the alerts' order: every alert
    lands in exactly one class, none is lost or invented, and an alert can
    only be "normal" for a product whose minimum stock level exceeds 50. *)
Theorem check_stock_levels_partition (self : DatabaseManager.t) :
  InventoryService.critical (InventoryService.check_stock_levels self)
    = filter is_critical (InventoryService.get_low_stock_alerts self)
  ∧ InventoryService.low (InventoryService.check_stock_levels self)
    = filter is_low (InventoryService.get_low_stock_alerts self)
  ∧ InventoryService.normal (InventoryService.check_stock_levels self)
    = filter is_normal (InventoryService.get_low_stock_alerts self)
  ∧ InventoryService.critical (InventoryService.check_stock_levels self)
      ++ InventoryService.low (InventoryService.check_stock_levels self)
      ++ InventoryService.normal (InventoryService.check_stock_levels self)
    ≡ₚ InventoryService.get_low_stock_alerts self
  ∧ Forall (fun a => 50 < InventoryAlert.min_required a)
      (InventoryService.normal (InventoryService.check_stock_levels self)).
Proof.
  assert (H : InventoryService.check_stock_levels self
              = fold_left categorize (InventoryService.get_low_stock_alerts self)
                  {| InventoryService.critical := []; InventoryService.low := [];
                     InventoryService.normal := [] |}) by reflexivity.
  rewrite H, check_stock_levels_fold. simpl.
  split_and!; try reflexivity.
  - apply urgency_classes_partition.
  - apply Forall_forall. intros a [Hnormal Hin]%list_elem_of_filter.
    rewrite get_low_stock_alerts_map in Hin.
    apply list_elem_of_In, in_map_iff in Hin as (p & <- & Hp).
    apply list_elem_of_In, elem_of_get_low_stock_products in Hp as [_ Hlt].
    unfold is_normal in Hnormal. simpl in *. lia.
Qed.

(** ** Sales summary after a sale *)

Section SummaryAfterSale.


End SummaryAfterSale.



(** ** The inventory summary *)

Section Summary.

Lemma stock_value_priceable (p : Product.t) :
  priceable p → is_Some (InventoryService.stock_value p).
Proof.
  unfold priceable, InventoryService.stock_value, Py.float_mul_int.
  intros [f ->]. by eexists.
Qed.

Lemma categories_loop_snoc (products : list Product.t) (p : Product.t)
    (acc : gmap string InventoryService.category_stats) :
  InventoryService.categories_loop (products ++ [p]) acc
  = match InventoryService.categories_loop products acc with
    | Some categories => InventoryService.categories_body categories p
    | None => None
    end.
Proof.
  revert acc. induction products as [|p' products IH]; intros acc; simpl.
  - by destruct (InventoryService.categories_body acc p).
  - by destruct (InventoryService.categories_body acc p').
Qed.

Lemma category_entry_snoc_same (p : Product.t) (products : list Product.t) (v : float) :
  InventoryService.stock_value p = Some v →
  category_entry (Product.category p) (products ++ [p])
  = Some (InventoryService.mk_category_stats
            (InventoryService.count
               (default (InventoryService.mk_category_stats 0 0)
                        (category_entry (Product.category p) products)) + 1)
            (InventoryService.value
               (default (InventoryService.mk_category_stats 0 0)
                        (category_entry (Product.category p) products)) + v)%float).
Proof.
  intros Hv. unfold category_entry.
  rewrite filter_app, filter_cons, decide_True, filter_nil by done.
  destruct (filter (fun p0 => Product.category p0 = Product.category p) products)
    as [|m members] eqn:Hm; simpl.
  - by rewrite Hv.
  - f_equal. f_equal.
    + rewrite length_app. simpl. lia.
    + destruct (InventoryService.stock_value m) as [vm|]; simpl.
      * rewrite omap_app. simpl. rewrite Hv. simpl.
        change (vm :: omap InventoryService.stock_value members ++ [v])
          with ((vm :: omap InventoryService.stock_value members) ++ [v]).
        by rewrite sum_float_snoc.
      * rewrite omap_app. simpl. rewrite Hv. simpl. by rewrite sum_float_snoc.
Qed.

Lemma category_entry_snoc_other (c : string) (p : Product.t)
    (products : list Product.t) :
  Product.category p ≠ c →
  category_entry c (products ++ [p]) = category_entry c products.
Proof.
  intros Hne. unfold category_entry.
  by rewrite filter_app, filter_cons, decide_False, filter_nil, app_nil_r.
Qed.

(** When every stock value can be computed the loop ends with exactly the
    entries [category_entry] describes. *)
Lemma categories_loop_entries (products : list Product.t) :
  Forall priceable products →
  ∃ categories,
    InventoryService.categories_loop products ∅ = Some categories
    ∧ ∀ c, categories !! c = category_entry c products.
Proof.
  induction products as [|p products IH] using rev_ind; intros Hall.
  - exists ∅. split; [done|]. intros c. by rewrite lookup_empty.
  - apply Forall_app in Hall as [Hall Hp]. rewrite Forall_singleton in Hp.
    destruct (IH Hall) as (categories & Hloop & Hentries).
    destruct (stock_value_priceable p Hp) as [v Hv].
    rewrite categories_loop_snoc, Hloop.
    unfold InventoryService.categories_body. rewrite Hv.
    eexists. split; [reflexivity|]. intros c.
    destruct (decide (Product.category p = c)) as [<-|Hne].
    + rewrite lookup_insert_eq, (category_entry_snoc_same p products v Hv).
      rewrite <- Hentries.
      by destruct (categories !! Product.category p).
    + rewrite lookup_insert_ne by done.
      by rewrite category_entry_snoc_other.
Qed.

End Summary.

(** X16: when every product's quantity converts to a float, the inventory
    summary in force returns (it raises [OverflowError] only otherwise) and
    reports the number of products, the number of products below their
    minimum stock level, "Good" as stock health exactly when there is no
    such product, the sum of the products' stock values, and for each
    category the number of its products and the sum of their stock values;
    categories without products have no entry. *)
Theorem get_inventory_summary_spec (self : DatabaseManager.t) :
  Forall priceable (DatabaseManager.get_all_products self) →
  ∃ s values,
    InventoryService.get_inventory_summary self = inr s
    ∧ InventoryService.total_products s
      = Z.of_nat (length (DatabaseManager.get_all_products self))
    ∧ InventoryService.low_stock_count s
      = Z.of_nat (length (InventoryService.get_low_stock_products self))
    ∧ (InventoryService.stock_health s = "Good"
       ↔ ∀ k p, DatabaseManager.load_products self !! k = Some p →
                Product.min_stock_level p ≤ Product.quantity p)
    ∧ mapM InventoryService.stock_value (DatabaseManager.get_all_products self)
      = Some values
    ∧ InventoryService.total_inventory_value s = Py.sum_float values
    ∧ ∀ c, InventoryService.categories s !! c
           = category_entry c (DatabaseManager.get_all_products self).
Proof.
  intros Hall.
  destruct (categories_loop_entries _ Hall) as (categories & Hloop & Hentries).
  destruct (mapM_is_Some_2 InventoryService.stock_value
              (DatabaseManager.get_all_products self)) as [values Hvalues].
  { eapply Forall_impl; [exact Hall|]. intros p. apply stock_value_priceable. }
  unfold InventoryService.get_inventory_summary.
  unfold DatabaseManager.get_all_products in *. rewrite Hvalues, Hloop.
  eexists _, values. split; [reflexivity|]. simpl.
  assert (Hcount : Py.len (InventoryService.get_low_stock_alerts self)
                   = Z.of_nat (length (InventoryService.get_low_stock_products self))).
  { rewrite get_low_stock_alerts_map. unfold Py.len. by rewrite length_map. }
  split_and!; try done.
  - by rewrite length_fmap, length_map_to_list.
  - rewrite Hcount.
    destruct (InventoryService.get_low_stock_products self) as [|p0 lows] eqn:Hlow;
      simpl.
    + split; [|done]. intros _ k p Hk.
      destruct (decide (Product.min_stock_level p ≤ Product.quantity p)); [done|].
      assert (Hin : p ∈ InventoryService.get_low_stock_products self).
      { apply elem_of_get_low_stock_products. split; [by exists k | lia]. }
      rewrite Hlow in Hin. by apply elem_of_nil in Hin.
    + split; [done|]. intros Hgood.
      assert (Hin : p0 ∈ InventoryService.get_low_stock_products self).
      { rewrite Hlow. apply list_elem_of_here. }
      apply elem_of_get_low_stock_products in Hin as [[k Hk] Hlt].
      specialize (Hgood k p0 Hk). lia.
Qed.

Lemma get_inventory_summary_spec_witness :
  ∃ s values,
    InventoryService.get_inventory_summary low_rice_db = inr s
    ∧ InventoryService.total_products s
      = Z.of_nat (length (DatabaseManager.get_all_products low_rice_db))
    ∧ InventoryService.low_stock_count s
      = Z.of_nat (length (InventoryService.get_low_stock_products low_rice_db))
    ∧ (InventoryService.stock_health s = "Good"
       ↔ ∀ k p, DatabaseManager.load_products low_rice_db !! k = Some p →
                Product.min_stock_level p ≤ Product.quantity p)
    ∧ mapM InventoryService.stock_value (DatabaseManager.get_all_products low_rice_db)
      = Some values
    ∧ InventoryService.total_inventory_value s = Py.sum_float values
    ∧ ∀ c, InventoryService.categories s !! c
           = category_entry c (DatabaseManager.get_all_products low_rice_db).
Proof.
  apply (get_inventory_summary_spec low_rice_db).
  unfold priceable. apply (bool_decide_unpack _). vm_compute. exact I.
Defined.

(** The summary of the default catalog with ten units of "gro001" left:
    twenty products, one of them low, eight of them groceries. *)
Example get_inventory_summary_low_rice :
  ∃ s, InventoryService.get_inventory_summary low_rice_db = inr s
       ∧ InventoryService.total_products s = 20
       ∧ InventoryService.low_stock_count s = 1
       ∧ InventoryService.stock_health s = "Needs Attention"
       ∧ InventoryService.count <$> InventoryService.categories s !! "Grocery" = Some 8
       ∧ InventoryService.categories s !! "Toys" = None.
Proof. eexists. split_and!; vm_compute; reflexivity. Qed.

(** ** The REST handlers *)

Section Rest.
Import Api.

Lemma dict_setitem_keys (k : string) (v : Z) (d : list (string * Z)) (k' : string) :
  k' ∈ (dict_setitem k v d).*1 ↔ k' = k ∨ k' ∈ d.*1.
Proof.
  induction d as [|[k0 v0] rest IH]; simpl.
  - rewrite elem_of_cons, elem_of_nil. tauto.
  - destruct (decide (k0 = k)) as [->|Hne]; simpl.
    + rewrite !elem_of_cons. tauto.
    + rewrite !elem_of_cons, IH. tauto.
Qed.

Lemma dict_setitem_NoDup (k : string) (v : Z) (d : list (string * Z)) :
  NoDup d.*1 → NoDup (dict_setitem k v d).*1.
Proof.
  induction d as [|[k0 v0] rest IH]; simpl; intros Hnodup.
  - apply NoDup_singleton.
  - apply NoDup_cons in Hnodup as [Hfresh Hnodup].
    destruct (decide (k0 = k)) as [->|Hne]; simpl.
    + by apply NoDup_cons.
    + apply NoDup_cons. split; [|by apply IH].
      rewrite dict_setitem_keys. intros [->|Hin]; [done | by apply Hfresh].
Qed.

Lemma dict_setitem_elem (k : string) (v : Z) (d : list (string * Z))
    (k' : string) (v' : Z) :
  NoDup d.*1 →
  (k', v') ∈ dict_setitem k v d
  ↔ (k' = k ∧ v' = v) ∨ (k' ≠ k ∧ (k', v') ∈ d).
Proof.
  induction d as [|[k0 v0] rest IH]; simpl; intros Hnodup.
  - rewrite elem_of_cons, elem_of_nil. split.
    + intros [[= -> ->]|[]]. by left.
    + intros [[-> ->]|[_ []]]. by left.
  - apply NoDup_cons in Hnodup as [Hfresh Hnodup].
    destruct (decide (k0 = k)) as [->|Hne].
    + rewrite !elem_of_cons. split.
      * intros [[= -> ->]|Hin]; [by left|].
        right. split; [|by right]. intros ->. apply Hfresh.
        apply list_elem_of_fmap. by exists (k, v').
      * intros [[-> ->]|[Hne [[= -> ->]|Hin]]]; [by left | done | by right].
    + rewrite !elem_of_cons, (IH Hnodup). split.
      * intros [[= -> ->]|[[-> ->]|[Hk Hin]]].
        -- right. split; [done | by left].
        -- by left.
        -- right. split; [done | by right].
      * intros [[-> ->]|[Hk [[= -> ->]|Hin]]].
        -- right. by left.
        -- by left.
        -- right. right. by split.
Qed.

Lemma items_purchased_snoc (items : list BillItemCreate.t) (item : BillItemCreate.t) :
  items_purchased (items ++ [item])
  = dict_setitem (BillItemCreate.product_id item) (BillItemCreate.quantity item)
      (items_purchased items).
Proof. unfold items_purchased. by rewrite fold_left_app. Qed.

Lemma requested_snoc (items : list BillItemCreate.t) (item : BillItemCreate.t)
    (k : string) :
  requested (items ++ [item]) k
  = if decide (BillItemCreate.product_id item = k)
    then Some (BillItemCreate.quantity item)
    else requested items k.
Proof.
  unfold requested. rewrite rev_unit. simpl.
  destruct (decide (BillItemCreate.product_id item = k)) as [Heq|Hne].
  - by rewrite bool_decide_eq_true_2.
  - by rewrite bool_decide_eq_false_2.
Qed.

(** The dictionary built from the request holds every product once, with
    the quantity of the last item that names it. *)
Lemma items_purchased_requested (items : list BillItemCreate.t) :
  NoDup (items_purchased items).*1
  ∧ ∀ k q, (k, q) ∈ items_purchased items ↔ requested items k = Some q.
Proof.
  induction items as [|item items [IHnodup IH]] using rev_ind.
  - split; [apply NoDup_nil_2|]. intros k q. split; [by intros ?%elem_of_nil | done].
  - rewrite items_purchased_snoc. split; [by apply dict_setitem_NoDup|].
    intros k q. rewrite (dict_setitem_elem _ _ _ _ _ IHnodup), requested_snoc, IH.
    destruct (decide (BillItemCreate.product_id item = k)) as [<-|Hne].
    + split.
      * by intros [[_ ->]|[? _]].
      * intros [= <-]. by left.
    + split.
      * by intros [[-> _]|[_ ?]].
      * intros ?. right. by split.
Qed.

Lemma requested_quantity (items : list BillItemCreate.t) (k : string) (q : Z) :
  requested items k = Some q →
  ∃ item, item ∈ items ∧ BillItemCreate.quantity item = q.
Proof.
  unfold requested. intros H.
  destruct (find _ (rev items)) as [item|] eqn:Hfind; [|done].
  injection H as <-. apply find_some in Hfind as [Hin _].
  exists item. split; [|done]. apply list_elem_of_In. by apply in_rev.
Qed.

Lemma check_line_None (products : gmap string Product.t) (line : string * Z) :
  check_line products line = None
  ↔ ∃ p, products !! line.1 = Some p ∧ line.2 ≤ Product.quantity p.
Proof.
  unfold check_line. destruct (products !! line.1) as [p|].
  - destruct (Z.ltb_spec (Product.quantity p) line.2).
    + split; [done|]. intros (p' & [= <-] & ?). lia.
    + split; [|done]. intros _. exists p. split; [done | lia].
  - split; [done | by intros (p' & ? & _)].
Qed.

Lemma first_rejection_in_stock (db : DatabaseManager.t)
    (items : list BillItemCreate.t) :
  first_rejection (DatabaseManager.load_products db) (items_purchased items) = None
  ↔ in_stock db items.
Proof.
  destruct (items_purchased_requested items) as [_ Hreq].
  rewrite eq_None_not_Some, first_rejection_Some. unfold in_stock. split.
  - intros Hnone k q Hk. apply (check_line_None _ (k, q)).
    apply eq_None_not_Some. intros Hsome. apply Hnone.
    exists (k, q). split; [by apply Hreq | done].
  - intros Hall ([k q] & Hin & Hsome).
    apply Hreq, Hall, (check_line_None _ (k, q)) in Hin.
    rewrite Hin in Hsome. by destruct Hsome.
Qed.

Lemma items_purchased_convertible (items : list BillItemCreate.t) :
  Forall (fun item => is_Some (Py.float_of_int (BillItemCreate.quantity item))) items →
  Forall convertible (items_purchased items).
Proof.
  intros Hall. destruct (items_purchased_requested items) as [_ Hreq].
  apply Forall_forall. intros [k q] Hin.
  apply Hreq, requested_quantity in Hin as (item & Hitem & <-).
  rewrite Forall_forall in Hall. by apply Hall.
Qed.

End Rest.

(** X17: [POST /bills] with quantities that convert to float answers with
    a body exactly when the request asks of every product it names (taking
    the last quantity listed for it) no more than is on hand in the catalog
    as loaded; in every other case the handler ends with status 500, whose
    detail is the text of the status-400 exception raised and caught inside
    the handler.  A rejected request is never answered with status 400. *)
Theorem api_create_bill_answer (bill_data : Api.BillCreate.t) (uuid4 : string)
    (now : datetime) (db : DatabaseManager.t) :
  Forall (fun item => is_Some (Py.float_of_int (Api.BillItemCreate.quantity item)))
         (Api.BillCreate.items bill_data) →
  ((∃ b, (Api.create_bill bill_data uuid4 now db).1 = Api.Return b)
   ↔ in_stock db (Api.BillCreate.items bill_data))
  ∧ (¬ in_stock db (Api.BillCreate.items bill_data) →
     (Api.create_bill bill_data uuid4 now db).1
     = Api.HTTPException 500
         (Api.StrOf (Api.CaughtHTTPException 400 "Failed to create bill"))).
Proof.
  intros Hconv%items_purchased_convertible.
  destruct (items_purchased_requested (Api.BillCreate.items bill_data)) as [Hnodup _].
  destruct (create_bill_loop_first_rejection (DatabaseManager.load_products db)
              _ (BillingService.create_bill_init db) Hnodup Hconv)
    as [st Hloop]; [done|].
  rewrite <- first_rejection_in_stock.
  unfold Api.create_bill, BillingService.create_bill. rewrite Hloop.
  destruct (first_rejection (DatabaseManager.load_products db)
              (Api.items_purchased (Api.BillCreate.items bill_data)))
    as [[product_id|product_name available]|]; simpl.
  - split; [|done]. split; [by intros [? ?] | done].
  - split; [|done]. split; [by intros [? ?] | done].
  - split; [|done]. split; [done | by eexists].
Qed.

Lemma api_create_bill_answer_witness :
  (Api.create_bill too_much_oil scenario_uuid some_time shop_db).1
  = Api.HTTPException 500
      (Api.StrOf (Api.CaughtHTTPException 400 "Failed to create bill")).
Proof.
  refine (proj2 (api_create_bill_answer too_much_oil scenario_uuid some_time
                   shop_db _) _).
  - apply (bool_decide_unpack _). vm_compute. exact I.
  - intros Hstock. destruct (Hstock "gro002" 150 eq_refl) as (p & Hp & Hle).
    vm_compute in Hp. injection Hp as <-. simpl in Hle. lia.
Defined.

(** X18: when [POST /bills] answers with a body on a well-keyed catalog,
    the persisted quantity of every product the request names has gone
    down by the last quantity listed for it (quantities listed earlier for
    the same product are not billed), and every product the request does
    not name is as it was. *)
Theorem api_create_bill_bills_last_quantity (bill_data : Api.BillCreate.t)
    (uuid4 : string) (now : datetime) (db : DatabaseManager.t) (b : Api.body) :
  well_keyed db →
  (Api.create_bill bill_data uuid4 now db).1 = Api.Return b →
  (∀ k q, requested (Api.BillCreate.items bill_data) k = Some q →
     ∃ p, DatabaseManager.load_products db !! k = Some p
          ∧ DatabaseManager.load_products (Api.create_bill bill_data uuid4 now db).2 !! k
            = Some (Product.set_quantity (Product.quantity p - q) p))
  ∧ (∀ k, requested (Api.BillCreate.items bill_data) k = None →
       DatabaseManager.load_products (Api.create_bill bill_data uuid4 now db).2 !! k
       = DatabaseManager.load_products db !! k).
Proof.
  intros Hkeys. unfold Api.create_bill.
  destruct (items_purchased_requested (Api.BillCreate.items bill_data))
    as [Hnodup Hreq].
  destruct (BillingService.create_bill _ _ uuid4 now db) as [[[[bill|]|e] db'] lg] eqn:H;
    simpl; [|discriminate..].
  intros _.
  apply create_bill_returns_bill in H as (st & Hloop & _ & _ & _ & _ & _ & _ & -> & _).
  destruct (create_bill_loop_sync _ _ _ _ Hloop (create_bill_init_sync _ Hkeys))
    as [Hfile _].
  rewrite load_products_add_bill, Hfile. split.
  - intros k q Hk%Hreq.
    by apply (create_bill_loop_decrement _ _ _ k q Hnodup Hloop).
  - intros k Hk. apply (create_bill_loop_frame _ _ _ None k Hloop).
    intros ([k' q] & -> & Hin%Hreq)%list_elem_of_fmap. simpl in Hk. congruence.
Qed.

Lemma api_create_bill_bills_last_quantity_witness :
  ∃ p, DatabaseManager.load_products shop_db !! "gro001" = Some p
       ∧ DatabaseManager.load_products
           (Api.create_bill rice_twice scenario_uuid some_time shop_db).2 !! "gro001"
         = Some (Product.set_quantity (Product.quantity p - 30) p).
Proof.
  refine (proj1 (api_create_bill_bills_last_quantity rice_twice scenario_uuid
                   some_time shop_db
                   (Api.BillCreated "Bill created successfully" "3F2A9C1E" 98.7%float)
                   _ _) "gro001" 30 _).
  - unfold well_keyed, well_keyed_map. apply (bool_decide_unpack _). vm_compute. exact I.
  - vm_compute. reflexivity.
  - vm_compute. reflexivity.
Defined.

(** X19: [PUT /products/{id}] on a well-keyed catalog.  For an unknown
    identifier it ends with status 404 and changes nothing.  For a known
    one it answers with the success message; afterwards the product keeps
    its identifier, every field the request provides has the provided
    value (a quantity is taken as it is, negative or not), every field it
    omits is as before, every other product is untouched and the catalog
    is still well keyed; a request that provides no field leaves the
    catalog as it was. *)
Theorem api_update_product_spec (product_id : string)
    (product_update : Api.ProductUpdate.t) (db : DatabaseManager.t) :
  well_keyed db →
  (DatabaseManager.load_products db !! product_id = None →
   Api.update_product product_id product_update db
   = (Api.HTTPException 404 (Api.Literal "Product not found"), db))
  ∧ ∀ p, DatabaseManager.load_products db !! product_id = Some p →
      (Api.update_product product_id product_update db).1
      = Api.Return (Api.Message "Product updated successfully")
      ∧ (∃ p',
           DatabaseManager.load_products
             (Api.update_product product_id product_update db).2 !! product_id
           = Some p'
           ∧ Product.id p' = product_id
           ∧ Product.name p'
             = default (Product.name p) (Api.ProductUpdate.name product_update)
           ∧ Product.category p'
             = default (Product.category p) (Api.ProductUpdate.category product_update)
           ∧ Product.price p'
             = default (Product.price p) (Api.ProductUpdate.price product_update)
           ∧ Product.quantity p'
             = default (Product.quantity p) (Api.ProductUpdate.quantity product_update)
           ∧ Product.min_stock_level p'
             = default (Product.min_stock_level p)
                       (Api.ProductUpdate.min_stock_level product_update)
           ∧ Product.tax_rate p'
             = default (Product.tax_rate p) (Api.ProductUpdate.tax_rate product_update))
      ∧ (∀ k, k ≠ product_id →
           DatabaseManager.load_products
             (Api.update_product product_id product_update db).2 !! k
           = DatabaseManager.load_products db !! k)
      ∧ well_keyed (Api.update_product product_id product_update db).2
      ∧ (product_update = Api.ProductUpdate.mk None None None None None None →
         DatabaseManager.load_products
           (Api.update_product product_id product_update db).2
         = DatabaseManager.load_products db).
Proof.
  intros Hkeys. unfold Api.update_product, DatabaseManager.get_product_by_id. split.
  - by intros ->.
  - intros p Hp. rewrite Hp. simpl.
    pose proof (map_Forall_lookup_1 _ _ _ _ Hkeys Hp) as Hid. simpl in Hid.
    split_and!.
    + done.
    + eexists. rewrite load_update_product. simpl. rewrite Hid.
      rewrite lookup_insert_eq. by split_and!.
    + intros k Hk. rewrite load_update_product. simpl. rewrite Hid.
      by apply lookup_insert_ne.
    + by apply well_keyed_update_product.
    + intros ->. rewrite load_update_product. simpl. rewrite Hid.
      apply insert_id. rewrite Hp. destruct p; simpl in *. by subst.
Qed.

Lemma api_update_product_spec_witness :
  Api.update_product "nope" new_price shop_db
  = (Api.HTTPException 404 (Api.Literal "Product not found"), shop_db).
Proof.
  refine (proj1 (api_update_product_spec "nope" new_price shop_db _) _).
  - unfold well_keyed, well_keyed_map. apply (bool_decide_unpack _). vm_compute. exact I.
  - vm_compute. reflexivity.
Defined.

(** X20: [POST /products] files the product under the generated
    identifier: a following [GET] of that identifier answers with the
    fields as posted, a [GET] of any other identifier answers as before,
    and if the identifier was not in use a following [DELETE] of it gives
    back the catalog as it was. *)
Theorem api_create_product_round_trip (product : Api.ProductCreate.t)
    (uuid4 : string) (db : DatabaseManager.t) :
  Api.get_product uuid4 (Api.create_product product uuid4 db).2
  = Api.Return
      (Api.ProductDict
         (Product.mk uuid4 (Api.ProductCreate.name product)
            (Api.ProductCreate.category product) (Api.ProductCreate.price product)
            (Api.ProductCreate.quantity product)
            (Api.ProductCreate.min_stock_level product)
            (Api.ProductCreate.tax_rate product)))
  ∧ (∀ k, k ≠ uuid4 →
       Api.get_product k (Api.create_product product uuid4 db).2
       = Api.get_product k db)
  ∧ (Api.get_product uuid4 db = Api.HTTPException 404 (Api.Literal "Product not found") →
     (Api.delete_product uuid4 (Api.create_product product uuid4 db).2).1
     = Api.Return (Api.Message "Product deleted successfully")
     ∧ DatabaseManager.load_products
         (Api.delete_product uuid4 (Api.create_product product uuid4 db).2).2
       = DatabaseManager.load_products db).
Proof.
  unfold Api.get_product, Api.delete_product, Api.create_product,
    DatabaseManager.get_product_by_id, DatabaseManager.add_product,
    DatabaseManager.delete_product.
  simpl. rewrite !load_save_products, !lookup_insert_eq. split_and!.
  - done.
  - intros k Hk. by rewrite lookup_insert_ne.
  - intros Hnew. split; [done|]. simpl.
    rewrite load_save_products, delete_insert_eq.
    apply delete_id.
    by destruct (DatabaseManager.load_products db !! uuid4).
Qed.

(** X21: [DELETE /products/{id}] ends with status 404 exactly when the
    catalog has no such product, and then changes nothing; whatever it
    answers, a following [GET] or [DELETE] of the same identifier ends
    with status 404, and every other product is still there unchanged. *)
Theorem api_delete_product_spec (product_id : string) (db : DatabaseManager.t) :
  ((Api.delete_product product_id db).1
     = Api.HTTPException 404 (Api.Literal "Product not found")
   ↔ DatabaseManager.load_products db !! product_id = None)
  ∧ (DatabaseManager.load_products db !! product_id = None →
     (Api.delete_product product_id db).2 = db)
  ∧ Api.get_product product_id (Api.delete_product product_id db).2
    = Api.HTTPException 404 (Api.Literal "Product not found")
  ∧ (Api.delete_product product_id (Api.delete_product product_id db).2).1
    = Api.HTTPException 404 (Api.Literal "Product not found")
  ∧ (∀ k, k ≠ product_id →
       Api.get_product k (Api.delete_product product_id db).2 = Api.get_product k db).
Proof.
  unfold Api.get_product, Api.delete_product, DatabaseManager.get_product_by_id,
    DatabaseManager.delete_product.
  cbv zeta.
  destruct (DatabaseManager.load_products db !! product_id) as [p|] eqn:Hp; simpl.
  - rewrite !load_save_products, !lookup_delete_eq. split_and!; try done.
    intros k Hk. by rewrite lookup_delete_ne.
  - rewrite !Hp. by split_and!.
Qed.
